(** * hgssoauthentication: HTTP Negotiate authentication handlers

    A shallow embedding of [hgssoauthentication.py]: the two urllib
    handlers [SSPIAuthHandler] (Windows) and [KerberosAuthHandler]
    (Linux / macOS), the keytab ticket provisioning done by
    [KerberosAuthHandler.__init__], and the library functions they rely on
    ([str.split], [str.strip], [base64.encodebytes]).

    Strings are [string]: a character is a code point below 256, which is
    what a Python 2 [str] holds and what Python 3's [http.client] produces
    when it decodes header bytes as ISO-8859-1. *)

From Stdlib Require Import ZArith NArith Lia List Ascii String.
From Stdlib.Strings Require Import Byte.
From stdpp Require Import base strings gmap list pretty.

Local Open Scope string_scope.
Local Open Scope Z_scope.

(** ** Python strings *)

Module PyStr.

(** [sys.version_info.major < 3] selects byte strings, whose [isspace] knows
    the six ASCII white-space characters; Python 3 strings use the Unicode
    definition, which below 256 adds FS, GS, RS, US, NEL and NBSP. *)
Definition isspace (major : Z) (c : ascii) : bool :=
  let n := N_of_ascii c in
  let ascii_space := ((9 <=? n) && (n <=? 13) || (n =? 32))%N in
  if major <? 3 then ascii_space
  else ascii_space || ((28 <=? n) && (n <=? 31) || (n =? 133) || (n =? 160))%N.

Definition is_empty (s : string) : bool :=
  match s with EmptyString => true | String _ _ => false end.

(** [s.split(sep)] for a one-character separator: never an empty list. *)
Fixpoint split (sep : ascii) (s : string) : list string :=
  match s with
  | EmptyString => [EmptyString]
  | String c s' =>
      if Ascii.eqb c sep then EmptyString :: split sep s'
      else match split sep s' with
           | x :: xs => String c x :: xs
           | [] => [String c EmptyString]
           end
  end.

Fixpoint lstrip (major : Z) (s : string) : string :=
  match s with
  | EmptyString => EmptyString
  | String c s' => if isspace major c then lstrip major s' else s
  end.

Fixpoint rstrip (major : Z) (s : string) : string :=
  match s with
  | EmptyString => EmptyString
  | String c s' =>
      let r := rstrip major s' in
      if isspace major c && is_empty r then EmptyString else String c r
  end.

(** [s.strip()] *)
Definition strip (major : Z) (s : string) : string :=
  rstrip major (lstrip major s).

(** [s.split()] with no separator: the maximal runs of non-space
    characters.  [cur] is the field being read, reversed. *)
Fixpoint split_ws_from (major : Z) (cur : string) (s : string) : list string :=
  match s with
  | EmptyString => if is_empty cur then [] else [String.rev cur]
  | String c s' =>
      if isspace major c then
        if is_empty cur then split_ws_from major EmptyString s'
        else String.rev cur :: split_ws_from major EmptyString s'
      else split_ws_from major (String c cur) s'
  end.

Definition split_ws (major : Z) (s : string) : list string :=
  split_ws_from major EmptyString s.

(** [s.replace(old, new)] for a one-character [old]. *)
Fixpoint replace (old : ascii) (new : string) (s : string) : string :=
  match s with
  | EmptyString => EmptyString
  | String c s' =>
      if Ascii.eqb c old then new ++ replace old new s'
      else String c (replace old new s')
  end.

(** [s.capitalize()] on ASCII letters: first character upper case, the
    others lower case. *)
Definition upper (c : ascii) : ascii :=
  let n := N_of_ascii c in
  if ((97 <=? n) && (n <=? 122))%N then ascii_of_N (n - 32) else c.

Definition lower (c : ascii) : ascii :=
  let n := N_of_ascii c in
  if ((65 <=? n) && (n <=? 90))%N then ascii_of_N (n + 32) else c.

Fixpoint map_chars (f : ascii -> ascii) (s : string) : string :=
  match s with
  | EmptyString => EmptyString
  | String c s' => String (f c) (map_chars f s')
  end.

Definition capitalize (s : string) : string :=
  match s with
  | EmptyString => EmptyString
  | String c s' => String (upper c) (map_chars lower s')
  end.

(** [str(n)] for an [int]. *)
Definition str_int (n : Z) : string := pretty n.

(** ["%s" % x] where [x] may be [None]. *)
Definition str_opt (x : option string) : string :=
  match x with Some s => s | None => "None" end.

(** [x in l] for a list of strings. *)
Definition contains (x : string) (l : list string) : bool :=
  existsb (String.eqb x) l.

End PyStr.

(** ** base64.encodebytes *)

Module Base64.

Definition bytes := list byte.

Definition alphabet : list ascii :=
  list_ascii_of_string
    "ABCDEFGHIJKLMNOPQRSTUVWXYZabcdefghijklmnopqrstuvwxyz0123456789+/".

Definition pad : ascii := "="%char.
Definition newline : ascii := "010"%char.

Definition digit (n : N) : ascii := nth (N.to_nat n) alphabet pad.

(** Three input bytes as one 24-bit number, and its [i]-th 6-bit digit. *)
Definition triple (a b c : byte) : N :=
  N.lor (N.shiftl (Byte.to_N a) 16) (N.lor (N.shiftl (Byte.to_N b) 8) (Byte.to_N c)).

Definition sextet (n : N) (i : N) : ascii :=
  digit (N.land (N.shiftr n (18 - 6 * i)) 63).

(** The unbroken RFC 4648 encoding: four digits per three bytes, padded. *)
Fixpoint encode_groups (bs : bytes) : list ascii :=
  match bs with
  | [] => []
  | [a] =>
      let n := triple a x00 x00 in [sextet n 0; sextet n 1; pad; pad]
  | [a; b] =>
      let n := triple a b x00 in [sextet n 0; sextet n 1; sextet n 2; pad]
  | a :: b :: c :: rest =>
      let n := triple a b c in
      sextet n 0 :: sextet n 1 :: sextet n 2 :: sextet n 3 :: encode_groups rest
  end.

(** A line-broken text with its newlines taken out. *)
Definition unbroken (l : list ascii) : list ascii :=
  filter (fun c => c <> newline) l.

Definition b64encode (bs : bytes) : string :=
  string_of_list_ascii (encode_groups bs).

(** [binascii.b2a_base64(chunk)]: the encoding followed by a newline. *)
Definition b2a_base64 (chunk : bytes) : list ascii :=
  encode_groups chunk ++ [newline].

Definition MAXLINESIZE : nat := 76.
Definition MAXBINSIZE : nat := (MAXLINESIZE / 4) * 3.

(** [range(start, stop, step)], [count] elements of it. *)
Fixpoint range_from (count start step : nat) : list nat :=
  match count with
  | O => []
  | S k => start :: range_from k (start + step) step
  end.

Definition range (start stop step : nat) : list nat :=
  range_from ((stop - start + (step - 1)) / step) start step.

(** [s[i:j]] *)
Definition slice (i j : nat) (s : bytes) : bytes := take (j - i) (drop i s).

(** [[
    pieces = []
    for i in range(0, len(s), MAXBINSIZE):
        chunk = s[i : i + MAXBINSIZE]
        pieces.append(binascii.b2a_base64(chunk))
    return b"".join(pieces)
    ]] *)
Definition encodebytes (s : bytes) : list ascii :=
  concat (map (fun i => b2a_base64 (slice i (i + MAXBINSIZE) s))
              (range 0 (length s) MAXBINSIZE)).

End Base64.

(** ** Exceptions, collaborators and the effect monad *)

(** The exception classes the handlers can meet.  All of them derive from
    [Exception]; [LibraryError] stands for any other class raised by a
    collaborator ([socket.gaierror], [pywintypes.error],
    [configparser.ParsingError], [FileNotFoundError], [URLError], ...). *)
Inductive exn_class :=
| Exception
| GSSError
| IndexError
| KeyError
| LibraryError (name : string).

(** An exception instance: its class and [str(e)]. *)
Record exn := mk_exn { exn_cls : exn_class; exn_str : string }.

Definition is_GSSError (e : exn) : bool :=
  match exn_cls e with GSSError => true | _ => false end.

(** What a call into a collaborator gives back. *)
Inductive result (A : Type) :=
| Ok (a : A)
| Err (e : exn).
Arguments Ok {A} a.
Arguments Err {A} e.

(** What a method of this module gives back: a value, an exception that
    reaches the caller, or [sys.exit(code)]. *)
Inductive outcome (A : Type) :=
| Return (a : A)
| Raise (e : exn)
| SysExit (code : Z).
Arguments Return {A} a.
Arguments Raise {A} e.
Arguments SysExit {A} code.

(** An [HTTPMessage], seen through [get(name)]. *)
Record message := { msg_get : string -> option string }.

(** [headers.get(name, default)] *)
Definition get_header (m : message) (name default : string) : string :=
  match msg_get m name with Some v => v | None => default end.

(** [urllib.request.Request]: the fields the handlers touch. *)
Record request := mk_request {
  host : string;
  headers : gmap string string;
  unredirected_hdrs : gmap string string
}.

(** The response of [self.parent.open(req)]: [info()] is its headers. *)
Record response := mk_response { code : Z; info : message }.

(** A [configparser.ConfigParser] after [read]. *)
Record ConfigParser := {
  has_option : string -> string -> bool;
  get : string -> string -> result string
}.

(** Opaque objects of the security libraries: an [sspi.ClientAuth] or a
    GSS context. *)
Definition handle := N.

(** Every call that leaves the module, with what came back. *)
Inductive event :=
| Print (msg : string)
| SubprocessRun (argv : list string) (returncode : result Z)
| GetHostByNameEx (hostname : string) (r : result (string * list string * list string))
| NewClientAuth (pkg targetspn : string) (r : result handle)
| Authorize (ca : handle) (sec_buffer_in : option Base64.bytes)
            (r : result (Z * list Base64.bytes))
| AuthGSSClientInit (service : string) (r : result (Z * handle))
| AuthGSSClientStep (context : handle) (challenge : string) (r : result Z)
| AuthGSSClientResponse (context : handle) (r : result (option string))
| AddHeader (key val : string)
| AddUnredirectedHeader (key val : string)
| ParentOpen (req : request) (r : result response).

(** The process: [os.environ] and the rest of the world (file system,
    credential cache, network, security library), of some type [W]. *)
Record process (W : Type) := mk_process {
  environ : gmap string string;
  os : W
}.
Arguments mk_process {W} environ os.
Arguments environ {W} p.
Arguments os {W} p.

(** The collaborators.  A query reads the process; a call may also change
    the world. *)
Record platform (W : Type) := {
  major : Z;                                       (* sys.version_info.major *)
  expanduser : string -> process W -> string;
  isfile : string -> process W -> bool;
  geteuid : process W -> Z;
  config_read : string -> process W -> result ConfigParser;
  subprocess_run : list string -> process W -> result Z * W;
  gethostbyname_ex :
    string -> process W -> result (string * list string * list string) * W;
  ClientAuth : string -> string -> process W -> result handle * W;
  authorize :
    handle -> option Base64.bytes -> process W -> result (Z * list Base64.bytes) * W;
  authGSSClientInit : string -> process W -> result (Z * handle) * W;
  authGSSClientStep : handle -> string -> process W -> result Z * W;
  authGSSClientResponse : handle -> process W -> result (option string) * W;
  parent_open : request -> process W -> result response * W
}.
Arguments major {W} p.
Arguments expanduser {W} p _ _.
Arguments isfile {W} p _ _.
Arguments geteuid {W} p _.
Arguments config_read {W} p _ _.
Arguments subprocess_run {W} p _ _.
Arguments gethostbyname_ex {W} p _ _.
Arguments ClientAuth {W} p _ _ _.
Arguments authorize {W} p _ _ _.
Arguments authGSSClientInit {W} p _ _.
Arguments authGSSClientStep {W} p _ _ _.
Arguments authGSSClientResponse {W} p _ _.
Arguments parent_open {W} p _ _.

Module Eff.

(** A computation runs on a process and gives an outcome, the process
    afterwards and the events it caused, oldest first. *)
Definition M (W A : Type) : Type :=
  process W -> outcome A * process W * list event.

Section Monad.
Context {W : Type}.

Definition ret {A} (a : A) : M W A := fun p => (Return a, p, []).

Definition raise {A} (e : exn) : M W A := fun p => (Raise e, p, []).

Definition sys_exit {A} (c : Z) : M W A := fun p => (SysExit c, p, []).

(** [evs] happened, then [r]. *)
Definition after {A} (evs : list event)
    (r : outcome A * process W * list event) : outcome A * process W * list event :=
  (fst (fst r), snd (fst r), (evs ++ snd r)%list).

Definition bind {A B} (m : M W A) (k : A -> M W B) : M W B :=
  fun p =>
    match m p with
    | (Return a, p', evs) => after evs (k a p')
    | (Raise e, p', evs) => (Raise e, p', evs)
    | (SysExit c, p', evs) => (SysExit c, p', evs)
    end.

(** [try: body except <catches> as e: handler(e)] *)
Definition try_except {A} (body : M W A) (catches : exn -> bool)
    (handler : exn -> M W A) : M W A :=
  fun p =>
    match body p with
    | (Raise e, p', evs) =>
        if catches e then after evs (handler e p') else (Raise e, p', evs)
    | r => r
    end.

Definition emit (e : event) : M W unit := fun p => (Return tt, p, [e]).

(** A query of the process. *)
Definition ask {A} (f : process W -> A) : M W A := fun p => (Return (f p), p, []).

(** A query that may raise. *)
Definition ask_result {A} (f : process W -> result A) : M W A :=
  fun p =>
    match f p with
    | Ok a => (Return a, p, [])
    | Err e => (Raise e, p, [])
    end.

(** A call of a collaborator, logged as [ev] of its result. *)
Definition call {A} (f : process W -> result A * W) (ev : result A -> event) : M W A :=
  fun p =>
    let '(r, w) := f p in
    let p' := mk_process (environ p) w in
    match r with
    | Ok a => (Return a, p', [ev r])
    | Err e => (Raise e, p', [ev r])
    end.

(** [l[i]] *)
Definition getitem {A} (l : list A) (i : nat) : M W A :=
  match l !! i with
  | Some a => ret a
  | None => raise (mk_exn IndexError "list index out of range")
  end.

(** [os.environ[k]] *)
Definition environ_getitem (k : string) : M W string :=
  fun p =>
    match environ p !! k with
    | Some v => (Return v, p, [])
    | None => (Raise (mk_exn KeyError ("'" ++ k ++ "'")), p, [])
    end.

(** [os.environ[k] = v] *)
Definition environ_setitem (k v : string) : M W unit :=
  fun p => (Return tt, mk_process (<[k:=v]> (environ p)) (os p), []).

Definition print (msg : string) : M W unit := emit (Print msg).

End Monad.
End Eff.

Notation "'let!' x ':=' m 'in' k" := (Eff.bind m (fun x => k))
  (at level 10, x name, m at level 100, k at level 200, only parsing).
Notation "m ;;; k" := (Eff.bind m (fun _ => k))
  (at level 100, k at level 200, only parsing).

(** ** The handlers *)

(** [[ [s.strip() for s in headers.get("WWW-Authenticate", "").split(",")] ]] *)
Definition supported_schemes (major : Z) (headers : message) : list string :=
  map (PyStr.strip major)
      (PyStr.split "," (get_header headers "WWW-Authenticate" "")).

(** [Request.add_header]: [self.headers[key.capitalize()] = val] *)
Definition add_header (key val : string) (req : request) : request :=
  mk_request (host req) (<[PyStr.capitalize key := val]> (headers req))
             (unredirected_hdrs req).

(** [Request.add_unredirected_header]:
    [self.unredirected_hdrs[key.capitalize()] = val] *)
Definition add_unredirected_header (key val : string) (req : request) : request :=
  mk_request (host req) (headers req)
             (<[PyStr.capitalize key := val]> (unredirected_hdrs req)).

(** The workaround for Mercurial bug 6343 shared by both handlers:
    [[
    if(sys.version_info.major == 3):
        sys.exit(1)
    else:
        return None
    ]] *)
Definition exit_or_decline {W} (P : platform W) : Eff.M W (option response) :=
  if major P =? 3 then Eff.sys_exit 1 else Eff.ret None.

Module SSPIAuthHandler.
Section Handler.
Context {W : Type} (P : platform W).

(** The body of the [try] block, lines 81-86. *)
Definition negotiate (req : request) : Eff.M W (option response) :=
  let! h := Eff.getitem (PyStr.split ":" (host req)) 0 in
  let! names := Eff.call (gethostbyname_ex P h) (GetHostByNameEx h) in
  let! domain := Eff.environ_getitem "USERDNSDOMAIN" in
  let targetspn := "HTTP/" ++ fst (fst names) ++ "@" ++ domain in
  let! ca := Eff.call (ClientAuth P "Kerberos" targetspn)
                      (NewClientAuth "Kerberos" targetspn) in
  let! r := Eff.call (authorize P ca None) (Authorize ca None) in
  let out_buf := snd r in
  let! data := Eff.getitem out_buf 0 in
  let auth :=
    PyStr.replace Base64.newline ""
      (string_of_list_ascii (Base64.encodebytes data)) in
  let val := "Negotiate" ++ " " ++ auth in
  Eff.emit (AddHeader "Authorization" val) ;;;
  let req' := add_header "Authorization" val req in
  let! resp := Eff.call (parent_open P req') (ParentOpen req') in
  Eff.ret (Some resp).

Definition http_error_401 (req : request) (headers : message)
  : Eff.M W (option response) :=
  let supported_schemes := supported_schemes (major P) headers in
  if negb (PyStr.contains "Negotiate" supported_schemes) then
    Eff.print "Server does not support Kerberos authentication" ;;;
    Eff.ret None
  else
    Eff.try_except (negotiate req) (fun _ => true)
      (fun e =>
         Eff.print ("Kerberos error: " ++ exn_str e) ;;;
         exit_or_decline P).

End Handler.
End SSPIAuthHandler.

Module KerberosAuthHandler.
Section Handler.
Context {W : Type} (P : platform W).

(** [keytab and isfile(keytab) and principal], evaluated left to right;
    when it holds, the two strings. *)
Definition usable (keytab principal : option string)
  : Eff.M W (option (string * string)) :=
  match keytab with
  | None => Eff.ret None
  | Some k =>
      if PyStr.is_empty k then Eff.ret None
      else
        let! there := Eff.ask (isfile P k) in
        if there then
          match principal with
          | None => Eff.ret None
          | Some p =>
              if PyStr.is_empty p then Eff.ret None else Eff.ret (Some (k, p))
          end
        else Eff.ret None
  end.

Definition klist_argv (krb5ccname : string) : list string :=
  ["/usr/bin/klist"; "-c"; krb5ccname; "-s"].

Definition kinit_argv (krb5ccname keytab principal : string) : list string :=
  ["/usr/bin/kinit"; "-k"; "-c"; krb5ccname; "-t"; keytab; principal].

(** Lines 129-140, run when the keytab is usable. *)
Definition provision (keytab principal : string) : Eff.M W unit :=
  let! uid := Eff.ask (geteuid P) in
  let krb5ccname := "/tmp/krb5cc_" ++ PyStr.str_int uid in
  Eff.environ_setitem "KRB5CCNAME" krb5ccname ;;;
  let! klist := Eff.call (subprocess_run P (klist_argv krb5ccname))
                         (SubprocessRun (klist_argv krb5ccname)) in
  if negb (klist =? 0) then
    Eff.print "No valid kerberos ticket found, trying keytab" ;;;
    let argv := kinit_argv krb5ccname keytab principal in
    let! kinit := Eff.call (subprocess_run P argv) (SubprocessRun argv) in
    if kinit =? 0 then
      Eff.print "Succesfully obtained Kerberos ticket from keytab"
    else Eff.ret tt
  else Eff.ret tt.

(** [["%s/.hgrc" % expanduser("~")]] *)
Definition hgrcpath (p : process W) : string := expanduser P "~" p ++ "/.hgrc".

Definition __init__ : Eff.M W unit :=
  let! hgrcpath := Eff.ask hgrcpath in
  let! found := Eff.ask (isfile P hgrcpath) in
  if found then
    let! hgrc := Eff.ask_result (config_read P hgrcpath) in
    let! keytab :=
      (if has_option hgrc "krb" "keytab" then
         let! v := Eff.ask_result (fun _ => get hgrc "krb" "keytab") in
         let! k := Eff.ask (expanduser P v) in
         Eff.ret (Some k)
       else Eff.ret None) in
    let! principal :=
      (if has_option hgrc "krb" "principal" then
         let! v := Eff.ask_result (fun _ => get hgrc "krb" "principal") in
         Eff.ret (Some v)
       else Eff.ret None) in
    let! ok := usable keytab principal in
    match ok with
    | Some (k, p) => provision k p
    | None => Eff.ret tt
    end
  else Eff.ret tt.

(** The token after the scheme name in the first challenge:
    [[ resp.info().get("WWW-Authenticate", "").split(",")[0].split()[1] ]] *)
Definition server_token (resp : response) : Eff.M W string :=
  let! first :=
    Eff.getitem (PyStr.split "," (get_header (info resp) "WWW-Authenticate" "")) 0 in
  Eff.getitem (PyStr.split_ws (major P) first) 1.

Definition http_error_401 (req : request) (headers : message)
  : Eff.M W (option response) :=
  let supported_schemes := supported_schemes (major P) headers in
  if negb (PyStr.contains "Negotiate" supported_schemes) then
    Eff.print "Server does not support Kerberos authentication" ;;;
    Eff.ret None
  else
    (* req.get_host() on Python 2 and req.host on Python 3 read the same field *)
    let r := host req in
    let! h := Eff.getitem (PyStr.split ":" r) 0 in
    let service := "HTTP@" ++ h in
    let! init := Eff.call (authGSSClientInit P service) (AuthGSSClientInit service) in
    let context := snd init in
    let! stepped :=
      Eff.try_except
        (let! challenge := Eff.getitem supported_schemes 0 in
         Eff.call (authGSSClientStep P context challenge)
                  (AuthGSSClientStep context challenge) ;;;
         Eff.ret None)
        is_GSSError
        (fun e =>
           Eff.print ("Kerberos GSS Error: " ++ exn_str e) ;;;
           let! r := exit_or_decline P in
           Eff.ret (Some r)) in
    match stepped with
    | Some declined => Eff.ret declined
    | None =>
        let! response := Eff.call (authGSSClientResponse P context)
                                  (AuthGSSClientResponse context) in
        let val := "Negotiate " ++ PyStr.str_opt response in
        Eff.emit (AddUnredirectedHeader "Authorization" val) ;;;
        let req' := add_unredirected_header "Authorization" val req in
        let! resp := Eff.call (parent_open P req') (ParentOpen req') in
        (* make sure the response came from the correct server *)
        let! server_token := server_token resp in
        let! server_auth_result :=
          Eff.call (authGSSClientStep P context server_token)
                   (AuthGSSClientStep context server_token) in
        if server_auth_result <? 1 then
          Eff.raise (mk_exn Exception
                       ("Server authentication error: " ++
                        PyStr.str_int server_auth_result))
        else Eff.ret (Some resp)
    end.

End Handler.
End KerberosAuthHandler.

(** ** Reading a run *)

(** The first challenge of a response and the token after its scheme name,
    when there is one: the value [server_token] computes. *)
Definition first_challenge (resp : response) : string :=
  default "" (PyStr.split "," (get_header (info resp) "WWW-Authenticate" "") !! 0%nat).

Definition token_of (major : Z) (resp : response) : option string :=
  PyStr.split_ws major (first_challenge resp) !! 1%nat.

Definition is_resubmission (e : event) : bool :=
  match e with ParentOpen _ _ => true | _ => false end.

Definition resubmissions (evs : list event) : list event :=
  List.filter is_resubmission evs.

(** What happened after the request was resubmitted. *)
Fixpoint after_resubmission (evs : list event) : list event :=
  match evs with
  | [] => []
  | ParentOpen _ _ :: rest => rest
  | _ :: rest => after_resubmission rest
  end.

(** A call that hands a server token to the security library: a GSS step,
    or an SSPI [authorize] with an input buffer. *)
Definition is_verification (e : event) : bool :=
  match e with
  | AuthGSSClientStep _ _ _ => true
  | Authorize _ (Some _) _ => true
  | _ => false
  end.

Definition verifies_server (evs : list event) : bool :=
  existsb is_verification (after_resubmission evs).

Definition is_subprocess (e : event) : bool :=
  match e with SubprocessRun _ _ => true | _ => false end.

Definition is_kinit (e : event) : bool :=
  match e with
  | SubprocessRun (cmd :: _) _ => String.eqb cmd "/usr/bin/kinit"
  | _ => false
  end.

Definition is_klist (e : event) : bool :=
  match e with
  | SubprocessRun (cmd :: _) _ => String.eqb cmd "/usr/bin/klist"
  | _ => false
  end.

Definition returncode_of (e : event) : option (result Z) :=
  match e with SubprocessRun _ r => Some r | _ => None end.

(** ** A concrete platform

    A Linux host running Python 3 whose home holds an [.hgrc] naming a
    keytab; the world is the number of subprocesses run so far, and the
    credential cache holds a valid ticket once [kinit] has run. *)
Module Demo.

Definition hgrc : ConfigParser := {|
  has_option := fun s o =>
    String.eqb s "krb" && (String.eqb o "keytab" || String.eqb o "principal");
  get := fun s o =>
    if String.eqb o "keytab" then Ok "/etc/hg.keytab" else Ok "hg@EXAMPLE.ORG"
|}.

Definition challenge (v : string) : message :=
  {| msg_get := fun k => if String.eqb k "WWW-Authenticate" then Some v else None |}.

Definition no_challenge : message := {| msg_get := fun _ => None |}.

Definition req : request := mk_request "hg.example.org:8443" ∅ ∅.

(** The answer to a resubmission: 200 with the server's final token. *)
Definition resp (v : option string) : response :=
  mk_response 200 (match v with Some s => challenge s | None => no_challenge end).

Definition token : Base64.bytes := [x60; x82; x01; xff; x00].

(** [step_rc] is what [authGSSClientStep] answers to a server token,
    [first_step] what it answers to the first challenge, and [final] the
    [WWW-Authenticate] value of the resubmitted response. *)
Definition platform_with (py : Z) (first_step : result Z) (step_rc : result Z)
    (final : option string) (cfg : result ConfigParser) : platform nat := {|
  major := py;
  expanduser := fun path _ => if String.eqb path "~" then "/home/hg" else path;
  isfile := fun path _ =>
    String.eqb path "/home/hg/.hgrc" || String.eqb path "/etc/hg.keytab";
  geteuid := fun _ => 1000;
  config_read := fun _ _ => cfg;
  subprocess_run := fun argv p =>
    match argv with
    | cmd :: _ =>
        if String.eqb cmd "/usr/bin/klist"
        then (Ok (if Nat.eqb (os p) 0 then 1 else 0), S (os p))
        else (Ok 0, S (os p))
    | [] => (Err (mk_exn IndexError "list index out of range"), os p)
    end;
  gethostbyname_ex := fun h p => (Ok (h, [], ["192.0.2.7"]), os p);
  ClientAuth := fun _ _ p => (Ok 1%N, os p);
  authorize := fun _ _ p => (Ok (0, [token]), os p);
  authGSSClientInit := fun _ p => (Ok (1, 7%N), os p);
  authGSSClientStep := fun _ challenge p =>
    (if String.eqb challenge "Negotiate" then first_step else step_rc, os p);
  authGSSClientResponse := fun _ p => (Ok (Some "YIIB/w=="), os p);
  parent_open := fun _ p => (Ok (resp final), os p)
|}.

Definition py3_host : platform nat :=
  platform_with 3 (Ok 0) (Ok 1) (Some "Negotiate oYG2MIGz") (Ok hgrc).

(** The security library rejects the first step. *)
Definition gss_failure (py : Z) : platform nat :=
  platform_with py (Err (mk_exn GSSError "No Kerberos credentials available"))
    (Ok 1) (Some "Negotiate oYG2MIGz") (Ok hgrc).

(** The server's final token does not complete the context. *)
Definition mismatch : platform nat :=
  platform_with 3 (Ok 0) (Ok 0) (Some "Negotiate oYG2MIGz") (Ok hgrc).

(** The resubmitted response carries no [WWW-Authenticate] header. *)
Definition silent_server : platform nat :=
  platform_with 3 (Ok 0) (Ok 1) None (Ok hgrc).

(** An [.hgrc] without a [krb] section. *)
Definition plain_hgrc : ConfigParser := {|
  has_option := fun _ _ => false;
  get := fun _ o => Err (mk_exn (LibraryError "configparser.NoSectionError") "No section: 'krb'")
|}.

Definition no_keytab : platform nat :=
  platform_with 3 (Ok 0) (Ok 1) (Some "Negotiate oYG2MIGz") (Ok plain_hgrc).

(** An [.hgrc] that [configparser] cannot parse, such as one that starts
    with Mercurial's [%include] directive. *)
Definition parse_error : exn :=
  mk_exn (LibraryError "configparser.MissingSectionHeaderError")
         "File contains no section headers.".

Definition broken_hgrc : platform nat :=
  platform_with 3 (Ok 0) (Ok 1) (Some "Negotiate oYG2MIGz") (Err parse_error).

Definition start : process nat := mk_process ∅ 0%nat.

Definition windows_env : process nat :=
  mk_process (<["USERDNSDOMAIN" := "EXAMPLE.ORG"]> ∅) 0%nat.

End Demo.

(** ** Loading the module and registering the handlers *)

Module Setup.

(** The classes [uisetup] can append to [mercurial.url.handlerfuncs]. *)
Inductive handler :=
| SSPIAuthHandler
| KerberosAuthHandler
| OtherHandler (name : string).

(** The interpreter state the module's top level works on: the names bound
    in its namespace and Mercurial's list of handler factories. *)
Record interpreter := mk_interpreter {
  globals : gset string;
  handlerfuncs : list handler
}.

(** [except ImportError]: the class itself or its subclass
    [ModuleNotFoundError]. *)
Definition is_ImportError (e : exn) : bool :=
  match exn_cls e with
  | LibraryError name =>
      String.eqb name "ImportError" || String.eqb name "ModuleNotFoundError"
  | _ => false
  end.

Section TopLevel.
(** [sys.version_info.major], and what importing a module (or a name from
    it) does: nothing, or an exception. *)
Variable major : Z.
Variable importable : string -> option exn.

(** [import module as name] and [from module import x as name]. *)
Definition import_as (module name : string) : Eff.M interpreter unit :=
  fun p =>
    match importable module with
    | None =>
        (Return tt,
         mk_process (environ p)
           (mk_interpreter ({[name]} ∪ globals (os p)) (handlerfuncs (os p))),
         [])
    | Some e => (Raise e, p, [])
    end.

(** Lines 31-47. *)
Definition import_independent : Eff.M interpreter unit :=
  Eff.try_except
    (import_as "mercurial.url" "mercurial" ;;;
     if major <? 3 then
       import_as "urllib2" "urllib" ;;;
       import_as "ConfigParser" "configparser" ;;;
       import_as "base64.encodestring" "encodebytes"
     else
       import_as "urllib.request" "urllib" ;;;
       import_as "configparser" "configparser" ;;;
       import_as "base64.encodebytes" "encodebytes")
    is_ImportError
    (fun e =>
       Eff.print ("Could not import all required modules, error was: " ++ exn_str e) ;;;
       Eff.sys_exit 1).

(** Lines 50-60. *)
Definition import_specific : Eff.M interpreter unit :=
  Eff.try_except
    (import_as "sspi.ClientAuth" "ClientAuth" ;;;
     import_as "socket" "socket")
    is_ImportError
    (fun _ =>
       Eff.try_except
         (import_as "kerberos" "kerberos")
         is_ImportError
         (fun e =>
            Eff.print
              ("pywin32 (Windows) or python(3)-kerberos (Linux/macOS) module not found, error was: "
               ++ exn_str e) ;;;
            Eff.sys_exit 1)).

(** The module's top level: the imports of lines 28-60. *)
Definition load : Eff.M interpreter unit :=
  import_as "os" "os" ;;;
  import_as "sys" "sys" ;;;
  import_independent ;;;
  import_specific.

End TopLevel.

(** [mercurial.url.handlerfuncs.append(h)] *)
Definition append_handler (h : handler) : Eff.M interpreter unit :=
  fun p =>
    (Return tt,
     mk_process (environ p)
       (mk_interpreter (globals (os p)) (handlerfuncs (os p) ++ [h])%list),
     []).

(** [name in globals()] *)
Definition in_globals (name : string) : Eff.M interpreter bool :=
  Eff.ask (fun p => bool_decide (name ∈ globals (os p))).

Definition uisetup : Eff.M interpreter unit :=
  let! sspi := in_globals "ClientAuth" in
  (if sspi then append_handler SSPIAuthHandler else Eff.ret tt) ;;;
  let! krb := in_globals "kerberos" in
  if krb then append_handler KerberosAuthHandler else Eff.ret tt.

(** A fresh interpreter in which [handlerfuncs] already holds [hs]. *)
Definition fresh (hs : list handler) : process interpreter :=
  mk_process ∅ (mk_interpreter ∅ hs).

End Setup.

(** ** More ways to read a run *)

(** The events that act on the request object: a header added to it, or
    the request sent again. *)
Definition touches_request (e : event) : bool :=
  match e with
  | AddHeader _ _ | AddUnredirectedHeader _ _ | ParentOpen _ _ => true
  | _ => false
  end.

Definition is_print (e : event) : bool :=
  match e with Print _ => true | _ => false end.

(** The exception a call ended with, when it did. *)
Definition failure_of (e : event) : option exn :=
  match e with
  | SubprocessRun _ (Err x) | GetHostByNameEx _ (Err x) | NewClientAuth _ _ (Err x)
  | Authorize _ _ (Err x) | AuthGSSClientInit _ (Err x)
  | AuthGSSClientStep _ _ (Err x) | AuthGSSClientResponse _ (Err x)
  | ParentOpen _ (Err x) => Some x
  | _ => None
  end.

(** The GSS context an event works on. *)
Definition context_of (e : event) : option handle :=
  match e with
  | AuthGSSClientStep c _ _ | AuthGSSClientResponse c _ => Some c
  | _ => None
  end.

(** A string made of white space only. *)
Definition all_space (major : Z) (s : string) : bool :=
  forallb (PyStr.isspace major) (list_ascii_of_string s).

(** A string in which the character [c] does not occur. *)
Definition free_of (c : ascii) (s : string) : bool :=
  forallb (fun x => negb (Ascii.eqb x c)) (list_ascii_of_string s).

(** A non-empty string without white space: one field of [str.split()]. *)
Definition is_word (major : Z) (s : string) : bool :=
  negb (PyStr.is_empty s)
  && forallb (fun c => negb (PyStr.isspace major c)) (list_ascii_of_string s).

(** ** More concrete platforms *)

Module Cases.

(** [Demo.py3_host] with another configuration, other subprocesses and
    another answer to the resubmission. *)
Definition variant (cfg : ConfigParser)
    (run : list string -> process nat -> result Z * nat)
    (open : request -> process nat -> result response * nat) : platform nat := {|
  major := major Demo.py3_host;
  expanduser := expanduser Demo.py3_host;
  isfile := isfile Demo.py3_host;
  geteuid := geteuid Demo.py3_host;
  config_read := fun _ _ => Ok cfg;
  subprocess_run := run;
  gethostbyname_ex := gethostbyname_ex Demo.py3_host;
  ClientAuth := ClientAuth Demo.py3_host;
  authorize := authorize Demo.py3_host;
  authGSSClientInit := authGSSClientInit Demo.py3_host;
  authGSSClientStep := authGSSClientStep Demo.py3_host;
  authGSSClientResponse := authGSSClientResponse Demo.py3_host;
  parent_open := open
|}.

Definition url_error : exn :=
  mk_exn (LibraryError "urllib.error.URLError") "<urlopen error timed out>".

(** The resubmission fails. *)
Definition unreachable : platform nat :=
  variant Demo.hgrc (subprocess_run Demo.py3_host)
    (fun _ p => (Err url_error, os p)).

(** No ticket in the cache, and a keytab that [kinit] rejects. *)
Definition bad_keytab : platform nat :=
  variant Demo.hgrc (fun _ p => (Ok 1, S (os p))) (parent_open Demo.py3_host).

(** An [.hgrc] whose principal is left empty. *)
Definition empty_principal : ConfigParser := {|
  has_option := has_option Demo.hgrc;
  get := fun s o => if String.eqb o "keytab" then Ok "/etc/hg.keytab" else Ok ""
|}.

Definition unnamed : platform nat :=
  variant empty_principal (subprocess_run Demo.py3_host) (parent_open Demo.py3_host).

Definition import_error (module : string) : exn :=
  mk_exn (LibraryError "ModuleNotFoundError") ("No module named '" ++ module ++ "'").

(** Linux with [python3-kerberos]: no [sspi]. *)
Definition linux_modules (module : string) : option exn :=
  if String.eqb module "sspi.ClientAuth" then Some (import_error "sspi") else None.

(** Neither [pywin32] nor [python3-kerberos]. *)
Definition bare_modules (module : string) : option exn :=
  if String.eqb module "sspi.ClientAuth" then Some (import_error "sspi")
  else if String.eqb module "kerberos" then Some (import_error "kerberos")
  else None.

Definition gss_error : exn :=
  mk_exn GSSError "Cannot determine realm for numeric host address".

(** Building the security context fails, in either library:
    [authGSSClientInit] raises a [GSSError] and [ClientAuth] raises. *)
Definition no_context (py : Z) : platform nat := {|
  major := py;
  expanduser := expanduser Demo.py3_host;
  isfile := isfile Demo.py3_host;
  geteuid := geteuid Demo.py3_host;
  config_read := config_read Demo.py3_host;
  subprocess_run := subprocess_run Demo.py3_host;
  gethostbyname_ex := gethostbyname_ex Demo.py3_host;
  ClientAuth := fun _ _ p => (Err gss_error, os p);
  authorize := authorize Demo.py3_host;
  authGSSClientInit := fun _ p => (Err gss_error, os p);
  authGSSClientStep := authGSSClientStep Demo.py3_host;
  authGSSClientResponse := authGSSClientResponse Demo.py3_host;
  parent_open := parent_open Demo.py3_host
|}.

(** A request to an IPv6 literal with a port. *)
Definition ipv6_req : request := mk_request "[::1]:8443" ∅ ∅.

End Cases.

(** * Properties *)

(** ** Reasoning about computations *)

Section EffFacts.
Context {W : Type}.
Implicit Types p : process W.

Lemma after_nil {A} (r : outcome A * process W * list event) : Eff.after [] r = r.
Proof. by destruct r as [[o p] evs]. Qed.

Lemma after_after {A} e1 e2 (r : outcome A * process W * list event) :
  Eff.after e1 (Eff.after e2 r) = Eff.after (e1 ++ e2) r.
Proof. destruct r as [[o p] evs]. unfold Eff.after. simpl. by rewrite app_assoc. Qed.

Lemma after_tuple {A} e1 (o : outcome A) p e2 :
  Eff.after e1 (o, p, e2) = (o, p, (e1 ++ e2)%list).
Proof. reflexivity. Qed.

Lemma bind_ret {A B} (a : A) (k : A -> Eff.M W B) p :
  Eff.bind (Eff.ret a) k p = k a p.
Proof. unfold Eff.bind, Eff.ret. apply after_nil. Qed.

Lemma bind_raise {A B} e (k : A -> Eff.M W B) p :
  Eff.bind (Eff.raise e) k p = (Raise e, p, []).
Proof. reflexivity. Qed.

Lemma bind_sys_exit {A B} c (k : A -> Eff.M W B) p :
  Eff.bind (Eff.sys_exit c) k p = (SysExit c, p, []).
Proof. reflexivity. Qed.

Lemma bind_emit {B} e (k : unit -> Eff.M W B) p :
  Eff.bind (Eff.emit e) k p = Eff.after [e] (k tt p).
Proof. reflexivity. Qed.

Lemma bind_print {B} msg (k : unit -> Eff.M W B) p :
  Eff.bind (Eff.print msg) k p = Eff.after [Print msg] (k tt p).
Proof. reflexivity. Qed.

Lemma bind_ask {A B} (f : process W -> A) (k : A -> Eff.M W B) p :
  Eff.bind (Eff.ask f) k p = k (f p) p.
Proof. unfold Eff.bind, Eff.ask. apply after_nil. Qed.

Lemma bind_ask_result {A B} (f : process W -> result A) (k : A -> Eff.M W B) p :
  Eff.bind (Eff.ask_result f) k p =
  match f p with Ok a => k a p | Err e => (Raise e, p, []) end.
Proof.
  unfold Eff.bind, Eff.ask_result. destruct (f p); [apply after_nil | done].
Qed.

Lemma bind_call {A B} (f : process W -> result A * W) ev (k : A -> Eff.M W B) p :
  Eff.bind (Eff.call f ev) k p =
  match f p with
  | (Ok a, w) => Eff.after [ev (Ok a)] (k a (mk_process (environ p) w))
  | (Err e, w) => (Raise e, mk_process (environ p) w, [ev (Err e)])
  end.
Proof. unfold Eff.bind, Eff.call. by destruct (f p) as [[a|e] w]. Qed.

Lemma call_run {A} (f : process W -> result A * W) ev p :
  Eff.call f ev p =
  match f p with
  | (Ok a, w) => (Return a, mk_process (environ p) w, [ev (Ok a)])
  | (Err e, w) => (Raise e, mk_process (environ p) w, [ev (Err e)])
  end.
Proof. unfold Eff.call. by destruct (f p) as [[a|e] w]. Qed.

Lemma bind_getitem {A B} (l : list A) i (k : A -> Eff.M W B) p :
  Eff.bind (Eff.getitem l i) k p =
  match l !! i with
  | Some a => k a p
  | None => (Raise (mk_exn IndexError "list index out of range"), p, [])
  end.
Proof. unfold Eff.getitem. destruct (l !! i); [apply bind_ret | done]. Qed.

Lemma bind_environ_getitem {B} key (k : string -> Eff.M W B) p :
  Eff.bind (Eff.environ_getitem key) k p =
  match environ p !! key with
  | Some v => k v p
  | None => (Raise (mk_exn KeyError ("'" ++ key ++ "'")), p, [])
  end.
Proof.
  unfold Eff.bind, Eff.environ_getitem.
  destruct (environ p !! key); [apply after_nil | done].
Qed.

Lemma bind_environ_setitem {B} key v (k : unit -> Eff.M W B) p :
  Eff.bind (Eff.environ_setitem key v) k p =
  k tt (mk_process (<[key:=v]> (environ p)) (os p)).
Proof. unfold Eff.bind, Eff.environ_setitem. apply after_nil. Qed.

Lemma bind_bind {A B C} (m : Eff.M W A) (k : A -> Eff.M W B) (h : B -> Eff.M W C) p :
  Eff.bind (Eff.bind m k) h p = Eff.bind m (fun a => Eff.bind (k a) h) p.
Proof.
  unfold Eff.bind. destruct (m p) as [[[a|e|c] p1] e1]; try done.
  destruct (k a p1) as [[[b|e|c] p2] e2]; cbn; try done.
  destruct (h b p2) as [[o p3] e3]. unfold Eff.after. cbn. by rewrite app_assoc.
Qed.

Lemma bind_try_except {A B} (body : Eff.M W A) catches handler
    (k : A -> Eff.M W B) p :
  Eff.bind (Eff.try_except body catches handler) k p =
  match body p with
  | (Return a, p', evs) => Eff.after evs (k a p')
  | (Raise e, p', evs) =>
      if catches e then Eff.after evs (Eff.bind (handler e) k p')
      else (Raise e, p', evs)
  | (SysExit c, p', evs) => (SysExit c, p', evs)
  end.
Proof.
  unfold Eff.bind, Eff.try_except.
  destruct (body p) as [[[a|e|c] p1] e1]; try done.
  destruct (catches e); [|done].
  destruct (handler e p1) as [[[a|e'|c] p2] e2]; cbn; try done.
  destruct (k a p2) as [[o p3] e3]. unfold Eff.after. cbn. by rewrite app_assoc.
Qed.

Lemma bind_exit_or_decline {B} (P : platform W)
    (k : option response -> Eff.M W B) p :
  Eff.bind (exit_or_decline P) k p =
  if major P =? 3 then (SysExit 1, p, []) else k None p.
Proof.
  unfold exit_or_decline. destruct (major P =? 3); [done | apply bind_ret].
Qed.

Lemma ret_run {A} (a : A) p : Eff.ret a p = (Return a, p, []).
Proof. reflexivity. Qed.

Lemma raise_run {A} e p : @Eff.raise W A e p = (Raise e, p, []).
Proof. reflexivity. Qed.

Lemma print_run msg p : Eff.print msg p = (Return tt, p, [Print msg]).
Proof. reflexivity. Qed.

Lemma getitem_run {A} (l : list A) i p :
  Eff.getitem l i p =
  match l !! i with
  | Some a => (Return a, p, [])
  | None => (Raise (mk_exn IndexError "list index out of range"), p, [])
  end.
Proof. unfold Eff.getitem. by destruct (l !! i). Qed.

Lemma exit_or_decline_run (P : platform W) p :
  exit_or_decline P p =
  if major P =? 3 then (SysExit 1, p, []) else (Return None, p, []).
Proof. unfold exit_or_decline. by destruct (major P =? 3). Qed.

Lemma bind_if {A B} (c : bool) (m1 m2 : Eff.M W A) (k : A -> Eff.M W B) p :
  Eff.bind (if c then m1 else m2) k p =
  if c then Eff.bind m1 k p else Eff.bind m2 k p.
Proof. by destruct c. Qed.

End EffFacts.

Ltac eff_simpl :=
  repeat first
    [ rewrite bind_bind | rewrite bind_ret | rewrite bind_raise
    | rewrite bind_sys_exit | rewrite bind_emit | rewrite bind_print
    | rewrite bind_ask | rewrite bind_ask_result | rewrite bind_call
    | rewrite bind_try_except | rewrite bind_exit_or_decline
    | rewrite bind_getitem | rewrite bind_environ_getitem
    | rewrite bind_environ_setitem | rewrite call_run
    | rewrite ret_run | rewrite raise_run | rewrite print_run
    | rewrite getitem_run | rewrite exit_or_decline_run
    | rewrite after_after | rewrite after_tuple | rewrite after_nil
    | progress cbn beta iota ].

(** Case analysis on the next collaborator answer, lookup or test that the
    computation in the goal depends on. *)
Ltac eff_case :=
  match goal with
  | |- context [match ?x with (_, _) => _ end] =>
      lazymatch x with
      | (_, _) => fail
      | Eff.bind _ _ _ => fail
      | Eff.after _ _ => fail
      | Eff.try_except _ _ _ _ => fail
      | _ => destruct x as [[?|?] ?] eqn:?
      end
  | |- context [match ?x with Ok _ => _ | Err _ => _ end] =>
      destruct x as [?|?] eqn:?
  | |- context [match ?x with Some _ => _ | None => _ end] =>
      destruct x eqn:?
  | |- context [if ?c then _ else _] => destruct c eqn:?
  end.

Ltac eff_run := eff_simpl; repeat (eff_case; eff_simpl).

(** ** String helpers *)

Lemma contains_elem_of x l : PyStr.contains x l = true <-> x ∈ l.
Proof.
  unfold PyStr.contains. rewrite existsb_exists. split.
  - intros (y & Hy & E). apply String.eqb_eq in E. subst. by apply list_elem_of_In.
  - intros H. exists x. split; [by apply list_elem_of_In | apply String.eqb_refl].
Qed.

Lemma contains_not_elem_of x l : PyStr.contains x l = false <-> x ∉ l.
Proof.
  rewrite <- contains_elem_of. destruct (PyStr.contains x l); split; congruence.
Qed.

(** [split] always has a first element, so [s.split(sep)[0]] cannot fail. *)
Lemma split_head sep s : exists x xs, PyStr.split sep s = x :: xs.
Proof.
  induction s as [|c s IH]; simpl; [by eexists _, _|].
  destruct (Ascii.eqb c sep); [by eexists _, _|].
  destruct IH as (x & xs & ->). by eexists _, _.
Qed.

Lemma split_lookup_0 sep s :
  PyStr.split sep s !! 0%nat = Some (default "" (PyStr.split sep s !! 0%nat)).
Proof. destruct (split_head sep s) as (x & xs & ->). reflexivity. Qed.

Lemma supported_schemes_head major hdrs :
  exists x xs, supported_schemes major hdrs = x :: xs.
Proof.
  unfold supported_schemes.
  destruct (split_head "," (get_header hdrs "WWW-Authenticate" "")) as (x & xs & ->).
  by eexists _, _.
Qed.

(** ** The 401 handlers *)

Section Handlers.
Context {W : Type} (P : platform W).
Implicit Types (p : process W) (req : request) (hdrs : message).

(** C2.  When [Negotiate] is not among the comma-separated, stripped
    elements of the challenge, either handler returns [None]; all it does
    is print one line: no call of a security library, no header added, no
    resubmission, and the process is unchanged. *)
Theorem unsupported_scheme_not_handled req hdrs p :
  "Negotiate" ∉ supported_schemes (major P) hdrs ->
  SSPIAuthHandler.http_error_401 P req hdrs p =
    (Return None, p, [Print "Server does not support Kerberos authentication"])
  /\ KerberosAuthHandler.http_error_401 P req hdrs p =
    (Return None, p, [Print "Server does not support Kerberos authentication"]).
Proof.
  intros H. apply contains_not_elem_of in H.
  unfold SSPIAuthHandler.http_error_401, KerberosAuthHandler.http_error_401.
  rewrite H. cbn [negb]. split; reflexivity.
Qed.

Lemma token_of_lookups major resp first tok :
  PyStr.split "," (get_header (info resp) "WWW-Authenticate" "") !! 0%nat = Some first ->
  PyStr.split_ws major first !! 1%nat = Some tok ->
  token_of major resp = Some tok.
Proof. unfold token_of, first_challenge. intros ->. by cbn [default]. Qed.

(** What each handler does before it returns a response.  The Kerberos
    handler returns a response only
    as the answer of the resubmission, after one verification step on the
    token that follows the scheme name in the first challenge of that
    response, and only when that step answered 1 or more.  The SSPI handler
    returns the answer of the resubmission as it is: nothing happens
    between the resubmission and the return. *)
Theorem response_returned_after req hdrs p resp p' evs :
  (KerberosAuthHandler.http_error_401 P req hdrs p = (Return (Some resp), p', evs) ->
   exists pre req' ctx tok r,
     evs = (pre ++ [ParentOpen req' (Ok resp); AuthGSSClientStep ctx tok (Ok r)])%list
     /\ existsb is_resubmission pre = false
     /\ token_of (major P) resp = Some tok
     /\ 1 <= r
     /\ verifies_server evs = true)
  /\
  (SSPIAuthHandler.http_error_401 P req hdrs p = (Return (Some resp), p', evs) ->
   exists pre req',
     evs = (pre ++ [ParentOpen req' (Ok resp)])%list
     /\ existsb is_resubmission pre = false
     /\ verifies_server evs = false).
Proof.
  split.
  - unfold KerberosAuthHandler.http_error_401, KerberosAuthHandler.server_token.
    eff_run; intros [= <- <- <-].
    eexists [_; _; _; _], _, _, _, _. split; [reflexivity|].
    repeat split; [by eapply token_of_lookups | lia].
  - unfold SSPIAuthHandler.http_error_401, SSPIAuthHandler.negotiate.
    unfold Eff.try_except.
    eff_run; intros [= <- <- <-].
    eexists [_; _; _; _], _. repeat split.
Qed.

(** C3.  In a run of the Kerberos handler where the resubmission was
    answered and the verification step that followed returned [r < 1], the
    handler raises [Exception("Server authentication error: r")]; the
    response is not returned, whatever its status code. *)
Theorem failed_verification_raises req hdrs p o p' evs ctx tok r :
  KerberosAuthHandler.http_error_401 P req hdrs p = (o, p', evs) ->
  AuthGSSClientStep ctx tok (Ok r) ∈ after_resubmission evs ->
  r < 1 ->
  o = Raise (mk_exn Exception ("Server authentication error: " ++ PyStr.str_int r))
  /\ forall resp, o <> Return (Some resp).
Proof.
  unfold KerberosAuthHandler.http_error_401, KerberosAuthHandler.server_token.
  eff_run; intros [= <- <- <-]; cbn [after_resubmission app];
    intros Hin Hr;
    repeat (apply elem_of_cons in Hin as [Hin|Hin]; try discriminate);
    try (by apply elem_of_nil in Hin).
  - injection Hin as -> -> ->. split; [reflexivity | discriminate].
  - injection Hin as -> -> ->. lia.
Qed.

(** The challenges from which [server_token] cannot take a token. *)
Lemma no_token major resp :
  msg_get (info resp) "WWW-Authenticate" = None
  \/ msg_get (info resp) "WWW-Authenticate" = Some ""
  \/ (length (PyStr.split_ws major (first_challenge resp)) < 2)%nat ->
  token_of major resp = None.
Proof.
  unfold token_of, first_challenge, get_header.
  intros [-> | [-> | H]]; [reflexivity | reflexivity |].
  by apply lookup_ge_None_2; lia.
Qed.

(** C10.  In a run of the Kerberos handler where the resubmission was
    answered by a response whose [WWW-Authenticate] header is absent, empty,
    or has fewer than two white-space separated fields in its first
    comma-separated segment, the handler raises
    [IndexError("list index out of range")] to its caller, and nothing was
    called after the resubmission: no verification takes place. *)
Theorem missing_server_token_raises_IndexError req hdrs p o p' evs req' resp :
  KerberosAuthHandler.http_error_401 P req hdrs p = (o, p', evs) ->
  ParentOpen req' (Ok resp) ∈ evs ->
  msg_get (info resp) "WWW-Authenticate" = None
  \/ msg_get (info resp) "WWW-Authenticate" = Some ""
  \/ (length (PyStr.split_ws (major P) (first_challenge resp)) < 2)%nat ->
  o = Raise (mk_exn IndexError "list index out of range")
  /\ after_resubmission evs = [].
Proof.
  intros Hrun Hin Hbad. apply no_token in Hbad. revert Hrun Hin.
  unfold KerberosAuthHandler.http_error_401, KerberosAuthHandler.server_token.
  eff_run; intros [= <- <- <-]; cbn [app]; intros Hin;
    repeat (apply elem_of_cons in Hin as [Hin|Hin]; try discriminate);
    try (by apply elem_of_nil in Hin);
    injection Hin as -> ->;
    try (erewrite token_of_lookups in Hbad by eassumption; discriminate);
    try (split; reflexivity).
Qed.

(** An error inside the [try] block of a handler.  The handler prints it
    and then follows the workaround for Mercurial bug 6343: [sys.exit(1)] on
    Python 3, [None] otherwise.  For SSPI the block is the whole negotiation
    and any exception counts; for Kerberos it holds only the
    [authGSSClientStep] made before any resubmission, and only a [GSSError]
    counts. *)
Theorem negotiation_error_declines req hdrs p :
  "Negotiate" ∈ supported_schemes (major P) hdrs ->
  (forall e p1 evs1,
     SSPIAuthHandler.negotiate P req p = (Raise e, p1, evs1) ->
     SSPIAuthHandler.http_error_401 P req hdrs p =
       (if major P =? 3 then SysExit 1 else Return None, p1,
        (evs1 ++ [Print ("Kerberos error: " ++ exn_str e)])%list))
  /\
  (forall o p' evs ctx challenge e,
     KerberosAuthHandler.http_error_401 P req hdrs p = (o, p', evs) ->
     AuthGSSClientStep ctx challenge (Err e) ∈ evs ->
     existsb is_resubmission evs = false ->
     is_GSSError e = true ->
     o = (if major P =? 3 then SysExit 1 else Return None)
     /\ last evs = Some (Print ("Kerberos GSS Error: " ++ exn_str e))).
Proof.
  intros H. apply contains_elem_of in H. split.
  - intros e p1 evs1 Hneg. unfold SSPIAuthHandler.http_error_401.
    rewrite H. cbn [negb]. unfold Eff.try_except. rewrite Hneg.
    eff_simpl. destruct (major P =? 3); rewrite after_tuple, app_nil_r; reflexivity.
  - intros o p' evs ctx challenge e.
    unfold KerberosAuthHandler.http_error_401, KerberosAuthHandler.server_token.
    eff_run; intros [= <- <- <-]; cbn [app]; intros Hin Hres Hgss;
      try discriminate;
      repeat (apply elem_of_cons in Hin as [Hin|Hin]; try discriminate);
      try (by apply elem_of_nil in Hin);
      injection Hin as -> -> ->; try congruence; split; reflexivity.
Qed.

End Handlers.

(** ** base64 *)

Section Base64Facts.
Import Base64.

Lemma unbroken_id l : Forall (fun c => c <> newline) l -> unbroken l = l.
Proof.
  unfold unbroken. induction 1 as [|c l Hc _ IH]; [reflexivity|].
  by rewrite filter_cons_True, IH.
Qed.

Lemma replace_newline l :
  PyStr.replace newline "" (string_of_list_ascii l) =
  string_of_list_ascii (unbroken l).
Proof.
  induction l as [|c l IH]; [reflexivity|].
  cbn [string_of_list_ascii PyStr.replace]. unfold unbroken. rewrite filter_cons.
  destruct (Ascii.eqb_spec c newline) as [->|Hne].
  - rewrite decide_False by (intros H; by apply H). exact IH.
  - rewrite decide_True by done. cbn [string_of_list_ascii]. by rewrite IH.
Qed.

Lemma digit_not_newline n : digit n <> newline.
Proof.
  unfold digit.
  destruct (nth_in_or_default (N.to_nat n) alphabet pad) as [Hin | ->]; [|done].
  revert Hin. generalize (nth (N.to_nat n) alphabet pad). intros c Hin.
  apply list_elem_of_In in Hin. intros ->. revert Hin.
  apply (bool_decide_eq_false_1 (newline ∈ alphabet)). by vm_compute.
Qed.

Lemma encode_groups_unbroken bs : unbroken (encode_groups bs) = encode_groups bs.
Proof.
  apply unbroken_id.
  induction bs as [bs IH] using (induction_ltof1 _ (@length byte)).
  unfold ltof in IH.
  destruct bs as [|a [|b [|c rest]]]; cbn [encode_groups].
  - constructor.
  - repeat constructor; try apply digit_not_newline; done.
  - repeat constructor; try apply digit_not_newline; done.
  - repeat (constructor; [apply digit_not_newline|]).
    apply IH. cbn [length]. lia.
Qed.

Lemma b2a_base64_unbroken chunk : unbroken (b2a_base64 chunk) = encode_groups chunk.
Proof.
  unfold b2a_base64, unbroken. rewrite filter_app.
  fold (unbroken (encode_groups chunk)). rewrite encode_groups_unbroken.
  rewrite filter_cons, decide_False by (intros H; by apply H).
  by rewrite filter_nil, app_nil_r.
Qed.

(** Whole groups of three bytes encode independently of what follows. *)
Lemma encode_groups_app n xs ys :
  length xs = (3 * n)%nat ->
  encode_groups (xs ++ ys)%list = (encode_groups xs ++ encode_groups ys)%list.
Proof.
  revert xs. induction n as [|n IH]; intros xs Hlen.
  - destruct xs; [reflexivity | discriminate].
  - destruct xs as [|a [|b [|c rest]]]; try (cbn in Hlen; lia).
    cbn [app encode_groups]. rewrite IH by (cbn in Hlen; lia).
    reflexivity.
Qed.

Lemma encode_groups_chunk l :
  (encode_groups (take MAXBINSIZE l) ++ encode_groups (drop MAXBINSIZE l))%list =
  encode_groups l.
Proof.
  change MAXBINSIZE with 57%nat.
  destruct (le_lt_dec 57 (length l)) as [Hle|Hlt].
  - rewrite <- (encode_groups_app 19); [by rewrite take_drop|].
    rewrite length_take. lia.
  - rewrite take_ge, drop_ge by lia. apply app_nil_r.
Qed.

Lemma encode_from s count i :
  count = ((length s - i + 56) / 57)%nat ->
  unbroken (concat (map (fun i => b2a_base64 (slice i (i + MAXBINSIZE) s))
                        (range_from count i MAXBINSIZE))) =
  encode_groups (drop i s).
Proof.
  revert i. induction count as [|count IH]; intros i Hcount.
  - cbn. rewrite drop_ge; [reflexivity|].
    assert (length s - i + 56 < 57)%nat; [|lia].
    apply Nat.div_small_iff; lia.
  - cbn [range_from map concat]. unfold unbroken. rewrite filter_app.
    fold (unbroken (b2a_base64 (slice i (i + MAXBINSIZE) s))).
    rewrite b2a_base64_unbroken.
    match goal with |- (_ ++ ?r)%list = _ =>
      replace r with (encode_groups (drop (i + MAXBINSIZE) s)) end.
    + unfold slice. replace (i + MAXBINSIZE - i)%nat with MAXBINSIZE by lia.
      rewrite <- drop_drop. apply encode_groups_chunk.
    + symmetry. apply IH. change MAXBINSIZE with 57%nat.
      pose proof (Nat.div_mod_eq (length s - i + 56) 57) as E.
      rewrite <- Hcount in E.
      pose proof (Nat.mod_upper_bound (length s - i + 56) 57 ltac:(lia)) as Hr.
      destruct (le_lt_dec 57 (length s - i)) as [Hle|Hlt].
      * apply (Nat.div_unique _ _ _ ((length s - i + 56) mod 57)); lia.
      * assert (count = 0)%nat as -> by lia.
        replace (length s - (i + 57))%nat with 0%nat by lia. reflexivity.
Qed.

(** [encodebytes] with its newlines removed is the unbroken encoding. *)
Lemma encodebytes_unbroken data :
  PyStr.replace newline "" (string_of_list_ascii (encodebytes data)) =
  b64encode data.
Proof.
  rewrite replace_newline. unfold encodebytes, range, b64encode. f_equal.
  rewrite (encode_from data _ 0); [reflexivity|].
  change MAXBINSIZE with 57%nat. f_equal.
Qed.

Lemma b64encode_no_newline data :
  newline ∉ list_ascii_of_string (b64encode data).
Proof.
  unfold b64encode. rewrite list_ascii_of_string_of_list_ascii.
  rewrite <- encode_groups_unbroken. unfold unbroken.
  intros H. apply list_elem_of_filter in H as [H _]. by apply H.
Qed.

End Base64Facts.

(** ** The SSPI resubmission *)

Section Resubmission.
Context {W : Type} (P : platform W).

(** C9.  When the SSPI handler returns a response, that response answers
    the one resubmission of the run; the request sent carries
    [Authorization: Negotiate <b64>], where [<b64>] is the base64 encoding
    of the first output buffer of [authorize], without any newline. *)
Theorem sspi_resubmits_once_with_token req hdrs (p : process W) resp p' evs :
  SSPIAuthHandler.http_error_401 P req hdrs p = (Return (Some resp), p', evs) ->
  exists pre ca rc data bufs,
    let auth := "Negotiate " ++ Base64.b64encode data in
    let req' := add_header "Authorization" auth req in
    evs = (pre ++ [Authorize ca None (Ok (rc, data :: bufs));
                   AddHeader "Authorization" auth;
                   ParentOpen req' (Ok resp)])%list
    /\ resubmissions evs = [ParentOpen req' (Ok resp)]
    /\ headers req' !! "Authorization" = Some auth
    /\ Base64.newline ∉ list_ascii_of_string (Base64.b64encode data).
Proof.
  unfold SSPIAuthHandler.http_error_401, SSPIAuthHandler.negotiate.
  unfold Eff.try_except.
  eff_run; intros [= <- <- <-].
  match goal with H : ?a.2 !! 0%nat = Some ?d |- _ =>
    destruct a as [rc [|d' bufs]]; [discriminate|]; injection H as -> end.
  rewrite encodebytes_unbroken.
  eexists [_; _], _, rc, _, bufs. cbn zeta.
  split; [reflexivity|]. split; [reflexivity|].
  split; [apply lookup_insert_eq | apply b64encode_no_newline].
Qed.

End Resubmission.

(** ** The ticket provisioner *)

Section Provisioner.
Context {W : Type} (P : platform W).
Implicit Types p : process W.

Ltac init_run :=
  unfold KerberosAuthHandler.__init__, KerberosAuthHandler.usable,
    KerberosAuthHandler.provision;
  eff_run.

(** C4.  When there is no [.hgrc], or it names no keytab, or no principal,
    or the keytab it names is not a file, [__init__] leaves the process as
    it is ([os.environ] included) and causes no event: no subprocess is
    run. *)
Theorem no_usable_keytab_is_noop p :
  isfile P (KerberosAuthHandler.hgrcpath P p) p = false
  \/ (exists hgrc,
        config_read P (KerberosAuthHandler.hgrcpath P p) p = Ok hgrc
        /\ (has_option hgrc "krb" "keytab" = false
            \/ has_option hgrc "krb" "principal" = false
            \/ forall v, get hgrc "krb" "keytab" = Ok v ->
                         isfile P (expanduser P v p) p = false)) ->
  exists o, KerberosAuthHandler.__init__ P p = (o, p, []).
Proof.
  intros [Hno | (hgrc & Hcfg & Hbad)]; revert Hno || revert Hcfg Hbad; init_run;
    intros; simplify_eq; try (by eexists);
    match goal with H : _ \/ _ \/ _ |- _ => destruct H as [?|[?|Hv]] end;
    try congruence;
    erewrite Hv in * by eassumption; discriminate.
Qed.

(** C5.  Run [__init__] twice.  If every [klist] of the second run exits
    with 0, the second run starts no [kinit]. *)
Theorem valid_ticket_no_kinit p o1 p1 evs1 o2 p2 evs2 :
  KerberosAuthHandler.__init__ P p = (o1, p1, evs1) ->
  KerberosAuthHandler.__init__ P p1 = (o2, p2, evs2) ->
  (forall e, e ∈ evs2 -> is_klist e = true -> returncode_of e = Some (Ok 0)) ->
  existsb is_kinit evs2 = false.
Proof.
  intros _. init_run; intros [= <- <- <-] Hvalid; try reflexivity.
  all: match goal with H : negb (?rc =? 0) = true |- _ =>
         specialize (Hvalid _ (list_elem_of_here _ _) eq_refl);
         injection Hvalid as ->; discriminate
       end.
Qed.

(** What [provision] does when [klist] finds no valid ticket: it prints a
    line and runs [kinit] on the cache, the keytab and the principal; the
    line printed when [kinit] exits with 0 is spelt with one [s]. *)
Lemma expired_ticket_runs_kinit keytab principal p rc w :
  let krb5ccname := "/tmp/krb5cc_" ++ PyStr.str_int (geteuid P p) in
  let p1 := mk_process (<["KRB5CCNAME" := krb5ccname]> (environ p)) (os p) in
  let p2 := mk_process (environ p1) w in
  let argv := ["/usr/bin/kinit"; "-k"; "-c"; krb5ccname; "-t"; keytab; principal] in
  subprocess_run P ["/usr/bin/klist"; "-c"; krb5ccname; "-s"] p1 = (Ok rc, w) ->
  rc <> 0 ->
  exists o p' r tail,
    KerberosAuthHandler.provision P keytab principal p =
      (o, p', [SubprocessRun ["/usr/bin/klist"; "-c"; krb5ccname; "-s"] (Ok rc);
               Print "No valid kerberos ticket found, trying keytab";
               SubprocessRun argv r] ++ tail)%list
    /\ fst (subprocess_run P argv p2) = r
    /\ tail = match r with
              | Ok 0 => [Print "Succesfully obtained Kerberos ticket from keytab"]
              | _ => []
              end.
Proof.
  intros krb5ccname p1 p2 argv Hklist Hrc.
  unfold KerberosAuthHandler.provision, KerberosAuthHandler.klist_argv,
    KerberosAuthHandler.kinit_argv.
  eff_simpl. fold krb5ccname. fold p1. rewrite Hklist. eff_simpl.
  apply Z.eqb_neq in Hrc. rewrite Hrc. cbn [negb]. eff_simpl.
  fold p2. fold argv.
  destruct (subprocess_run P argv p2) as [[rc'|e] w'] eqn:Hkinit; eff_simpl.
  - destruct (Z.eqb_spec rc' 0) as [->|Hne]; eff_simpl.
    + by eexists _, _, _, _.
    + eexists _, _, _, _. repeat split. destruct rc'; congruence.
  - by eexists _, _, _, _.
Qed.

(** C8, as the code has it.  [__init__] never ends the process, and it
    raises to its caller exactly when a collaborator raises on its way,
    with that same exception: reading [.hgrc] when it is a file, getting
    the keytab option when it is set, getting the principal option when it
    is set (the keytab option being unset or got), or starting a
    subprocess.  In every other case it returns normally, whatever the exit
    status of [klist] and [kinit]. *)
Theorem provisioner_raises_what_collaborators_raise p o p' evs :
  KerberosAuthHandler.__init__ P p = (o, p', evs) ->
  let hgrcpath := KerberosAuthHandler.hgrcpath P p in
  let raised (e : exn) : Prop :=
    (isfile P hgrcpath p = true
     /\ (config_read P hgrcpath p = Err e
         \/ exists hgrc,
              config_read P hgrcpath p = Ok hgrc
              /\ ((has_option hgrc "krb" "keytab" = true
                   /\ get hgrc "krb" "keytab" = Err e)
                  \/ ((has_option hgrc "krb" "keytab" = false
                       \/ exists v, get hgrc "krb" "keytab" = Ok v)
                      /\ has_option hgrc "krb" "principal" = true
                      /\ get hgrc "krb" "principal" = Err e))))
    \/ exists argv, SubprocessRun argv (Err e) ∈ evs in
  (forall c, o <> SysExit c)
  /\ (forall e, o = Raise e <-> raised e)
  /\ (o = Return tt <-> forall e, ~ raised e).
Proof.
  intros Hrun hgrcpath raised.
  assert ((forall c, o <> SysExit c) /\ (forall e, o = Raise e <-> raised e))
    as [Hexit Hraise].
  { subst raised hgrcpath. revert Hrun.
    init_run; intros [= <- <- <-]; (split; [discriminate|]); intros e';
      (split;
       [ intros Heq; try discriminate Heq; injection Heq as <-;
         first
           [ solve [ right; eexists;
                     repeat first [apply list_elem_of_here
                                  | apply list_elem_of_further] ]
           | left; split; [done|]; first
               [ by left
               | right; eexists; split; [reflexivity|]; first
                   [ left; by split
                   | right; split; [|by split]; first
                       [ by left | right; by eexists ] ] ] ]
       | intros [[Hfile [Hcfg | (hgrc & Hcfg & [[Hk Hkv] | [Hkok [Hpr Hprv]]])]]
                | [argv Hin]];
         [ try congruence
         | try (assert (hgrc = a) as -> by congruence); try congruence
         | try (assert (hgrc = a) as -> by congruence);
           try (destruct Hkok as [Hk | [v Hkv]]); try congruence
         | repeat (apply elem_of_cons in Hin as [Hin|Hin]; try discriminate);
           try (by apply elem_of_nil in Hin);
           try (injection Hin as -> ->; reflexivity) ] ]). }
  split; [exact Hexit|]. split; [exact Hraise|]. split.
  - intros -> e He. apply Hraise in He. discriminate.
  - intros Hnone. destruct o as [[]|e|c]; [reflexivity | |].
    + exfalso. apply (Hnone e). by apply Hraise.
    + by destruct (Hexit c).
Qed.

End Provisioner.

(** ** The properties at work on the concrete platform *)

Ltac evaluate E := vm_compute in E; injection E as <- <- <-.

Lemma unsupported_scheme_not_handled_witness :
  SSPIAuthHandler.http_error_401 Demo.py3_host Demo.req
      (Demo.challenge "Basic realm=hg, NTLM") Demo.start =
    (Return None, Demo.start,
     [Print "Server does not support Kerberos authentication"])
  /\ KerberosAuthHandler.http_error_401 Demo.py3_host Demo.req
      (Demo.challenge "Basic realm=hg, NTLM") Demo.start =
    (Return None, Demo.start,
     [Print "Server does not support Kerberos authentication"]).
Proof.
  apply (unsupported_scheme_not_handled Demo.py3_host).
  apply contains_not_elem_of. vm_compute. reflexivity.
Defined.

(** C1 on the SSPI handler: the handshake succeeds and the resubmitted
    response is returned; it carries a server token, yet nothing was called
    after the resubmission, so the token was never verified. *)
Theorem sspi_returns_unverified_response :
  let '(o, _, evs) :=
    SSPIAuthHandler.http_error_401 Demo.py3_host Demo.req
      (Demo.challenge "Negotiate") Demo.windows_env in
  o = Return (Some (Demo.resp (Some "Negotiate oYG2MIGz")))
  /\ token_of 3 (Demo.resp (Some "Negotiate oYG2MIGz")) = Some "oYG2MIGz"
  /\ after_resubmission evs = []
  /\ verifies_server evs = false.
Proof. vm_compute. repeat split. Qed.

Lemma response_returned_after_witness :
  let '(_, _, evs) :=
    KerberosAuthHandler.http_error_401 Demo.py3_host Demo.req
      (Demo.challenge "Negotiate") Demo.start in
  exists pre req' ctx tok r,
    evs = (pre ++ [ParentOpen req' (Ok (Demo.resp (Some "Negotiate oYG2MIGz")));
                   AuthGSSClientStep ctx tok (Ok r)])%list
    /\ existsb is_resubmission pre = false
    /\ token_of 3 (Demo.resp (Some "Negotiate oYG2MIGz")) = Some tok
    /\ 1 <= r
    /\ verifies_server evs = true.
Proof.
  destruct (KerberosAuthHandler.http_error_401 _ _ _ _) as [[o p'] evs] eqn:E.
  apply (proj1 (response_returned_after Demo.py3_host Demo.req
                  (Demo.challenge "Negotiate") Demo.start
                  (Demo.resp (Some "Negotiate oYG2MIGz")) p' evs)).
  rewrite E. f_equal. f_equal. evaluate E. reflexivity.
Defined.

Lemma failed_verification_raises_witness :
  let '(o, _, _) :=
    KerberosAuthHandler.http_error_401 Demo.mismatch Demo.req
      (Demo.challenge "Negotiate") Demo.start in
  o = Raise (mk_exn Exception "Server authentication error: 0")
  /\ forall resp, o <> Return (Some resp).
Proof.
  destruct (KerberosAuthHandler.http_error_401 _ _ _ _) as [[o p'] evs] eqn:E.
  apply (failed_verification_raises Demo.mismatch _ _ _ _ _ _ 7%N "oYG2MIGz" 0 E).
  - evaluate E. vm_compute. apply list_elem_of_here.
  - lia.
Defined.

Lemma missing_server_token_raises_IndexError_witness :
  let '(o, _, evs) :=
    KerberosAuthHandler.http_error_401 Demo.silent_server Demo.req
      (Demo.challenge "Negotiate") Demo.start in
  o = Raise (mk_exn IndexError "list index out of range")
  /\ after_resubmission evs = [].
Proof.
  destruct (KerberosAuthHandler.http_error_401 _ _ _ _) as [[o p'] evs] eqn:E.
  apply (missing_server_token_raises_IndexError Demo.silent_server _ _ _ _ _ _
           (add_unredirected_header "Authorization" "Negotiate YIIB/w==" Demo.req)
           (Demo.resp None) E).
  - evaluate E. do 4 apply list_elem_of_further. apply list_elem_of_here.
  - left. reflexivity.
Defined.

Lemma negotiation_error_declines_witness :
  SSPIAuthHandler.http_error_401 Demo.py3_host Demo.req
      (Demo.challenge "Negotiate") Demo.start =
    (SysExit 1, Demo.start,
     [GetHostByNameEx "hg.example.org" (Ok ("hg.example.org", [], ["192.0.2.7"]));
      Print "Kerberos error: 'USERDNSDOMAIN'"])
  /\ (let '(o, _, evs) :=
        KerberosAuthHandler.http_error_401 (Demo.gss_failure 2) Demo.req
          (Demo.challenge "Negotiate") Demo.start in
      o = Return None
      /\ last evs = Some (Print "Kerberos GSS Error: No Kerberos credentials available")).
Proof.
  split.
  - exact (proj1 (negotiation_error_declines Demo.py3_host Demo.req
                    (Demo.challenge "Negotiate") Demo.start
                    ltac:(apply contains_elem_of; vm_compute; reflexivity))
             (mk_exn KeyError "'USERDNSDOMAIN'") Demo.start
             [GetHostByNameEx "hg.example.org"
                (Ok ("hg.example.org", [], ["192.0.2.7"]))]
             ltac:(vm_compute; reflexivity)).
  - destruct (KerberosAuthHandler.http_error_401 _ _ _ _) as [[o p'] evs] eqn:E.
    apply (proj2 (negotiation_error_declines (Demo.gss_failure 2) Demo.req
                    (Demo.challenge "Negotiate") Demo.start
                    ltac:(apply contains_elem_of; vm_compute; reflexivity))
             o p' evs 7%N "Negotiate"
             (mk_exn GSSError "No Kerberos credentials available") E).
    + evaluate E. apply list_elem_of_further, list_elem_of_here.
    + evaluate E. reflexivity.
    + reflexivity.
Defined.

(** C7.  A [GSSError] raised while the Kerberos handler builds its context
    is not handled as the claim says: [authGSSClientInit] is called before
    the [try], so on Python 3 as on Python 2 the error reaches the caller,
    nothing is printed, and the handler neither returns [None] nor exits.
    The SSPI handler, whose [try] holds the construction of its context,
    prints the same error and declines. *)
Theorem init_GSSError_reaches_caller :
  KerberosAuthHandler.http_error_401 (Cases.no_context 3) Demo.req
      (Demo.challenge "Negotiate") Demo.start =
    (Raise Cases.gss_error, Demo.start,
     [AuthGSSClientInit "HTTP@hg.example.org" (Err Cases.gss_error)])
  /\ KerberosAuthHandler.http_error_401 (Cases.no_context 2) Demo.req
      (Demo.challenge "Negotiate") Demo.start =
    (Raise Cases.gss_error, Demo.start,
     [AuthGSSClientInit "HTTP@hg.example.org" (Err Cases.gss_error)])
  /\ SSPIAuthHandler.http_error_401 (Cases.no_context 2) Demo.req
      (Demo.challenge "Negotiate") Demo.windows_env =
    (Return None, Demo.windows_env,
     [GetHostByNameEx "hg.example.org" (Ok ("hg.example.org", [], ["192.0.2.7"]));
      NewClientAuth "Kerberos" "HTTP/hg.example.org@EXAMPLE.ORG" (Err Cases.gss_error);
      Print "Kerberos error: Cannot determine realm for numeric host address"]).
Proof.
  split; [|split].
  - vm_compute. reflexivity.
  - vm_compute. reflexivity.
  - vm_compute. reflexivity.
Qed.

Lemma sspi_resubmits_once_with_token_witness :
  let '(_, _, evs) :=
    SSPIAuthHandler.http_error_401 Demo.py3_host Demo.req
      (Demo.challenge "Negotiate") Demo.windows_env in
  exists pre ca rc data bufs,
    let auth := "Negotiate " ++ Base64.b64encode data in
    let req' := add_header "Authorization" auth Demo.req in
    evs = (pre ++ [Authorize ca None (Ok (rc, data :: bufs));
                   AddHeader "Authorization" auth;
                   ParentOpen req' (Ok (Demo.resp (Some "Negotiate oYG2MIGz")))])%list
    /\ resubmissions evs = [ParentOpen req' (Ok (Demo.resp (Some "Negotiate oYG2MIGz")))]
    /\ headers req' !! "Authorization" = Some auth
    /\ Base64.newline ∉ list_ascii_of_string (Base64.b64encode data).
Proof.
  destruct (SSPIAuthHandler.http_error_401 _ _ _ _) as [[o p'] evs] eqn:E.
  apply (sspi_resubmits_once_with_token Demo.py3_host Demo.req
           (Demo.challenge "Negotiate") Demo.windows_env
           (Demo.resp (Some "Negotiate oYG2MIGz")) p' evs).
  rewrite E. f_equal. f_equal. evaluate E. reflexivity.
Defined.

Lemma no_usable_keytab_is_noop_witness :
  exists o, KerberosAuthHandler.__init__ Demo.no_keytab Demo.start = (o, Demo.start, []).
Proof.
  apply (no_usable_keytab_is_noop Demo.no_keytab Demo.start).
  right. exists Demo.plain_hgrc. split; [reflexivity|]. left. reflexivity.
Defined.

Lemma valid_ticket_no_kinit_witness :
  let '(_, p1, evs1) := KerberosAuthHandler.__init__ Demo.py3_host Demo.start in
  let '(_, _, evs2) := KerberosAuthHandler.__init__ Demo.py3_host p1 in
  existsb is_kinit evs1 = true /\ existsb is_kinit evs2 = false.
Proof.
  destruct (KerberosAuthHandler.__init__ Demo.py3_host Demo.start)
    as [[o1 p1] evs1] eqn:E1.
  destruct (KerberosAuthHandler.__init__ Demo.py3_host p1) as [[o2 p2] evs2] eqn:E2.
  split.
  - evaluate E1. reflexivity.
  - apply (valid_ticket_no_kinit Demo.py3_host Demo.start o1 p1 evs1 o2 p2 evs2 E1 E2).
    evaluate E1. evaluate E2. intros e He Hk.
    apply list_elem_of_singleton in He as ->. reflexivity.
Defined.

(** C6.  On the concrete platform [klist] exits with 1, [kinit] is run on the cache, the
    keytab and the principal and exits with 0; the line then printed is
    not the one the specification quotes. *)
Theorem kinit_success_message_misspelt :
  let '(o, _, evs) := KerberosAuthHandler.__init__ Demo.py3_host Demo.start in
  o = Return tt
  /\ evs = [SubprocessRun ["/usr/bin/klist"; "-c"; "/tmp/krb5cc_1000"; "-s"] (Ok 1);
            Print "No valid kerberos ticket found, trying keytab";
            SubprocessRun ["/usr/bin/kinit"; "-k"; "-c"; "/tmp/krb5cc_1000";
                           "-t"; "/etc/hg.keytab"; "hg@EXAMPLE.ORG"] (Ok 0);
            Print "Succesfully obtained Kerberos ticket from keytab"]
  /\ Print "Successfully obtained Kerberos ticket from keytab" ∉ evs.
Proof.
  vm_compute. split; [reflexivity|]. split; [reflexivity|].
  intros H. repeat (apply elem_of_cons in H as [H|H]; [discriminate|]).
  by apply elem_of_nil in H.
Qed.

(** Counterexample to C8 as stated: an [.hgrc] that cannot be parsed makes
    [__init__] raise to its caller. *)
Lemma unparsable_hgrc_raises :
  KerberosAuthHandler.__init__ Demo.broken_hgrc Demo.start =
    (Raise Demo.parse_error, Demo.start, []).
Proof. vm_compute. reflexivity. Qed.

Lemma provisioner_raises_what_collaborators_raise_witness :
  let '(o, _, evs) := KerberosAuthHandler.__init__ Demo.broken_hgrc Demo.start in
  let hgrcpath := KerberosAuthHandler.hgrcpath Demo.broken_hgrc Demo.start in
  let raised (e : exn) : Prop :=
    (isfile Demo.broken_hgrc hgrcpath Demo.start = true
     /\ (config_read Demo.broken_hgrc hgrcpath Demo.start = Err e
         \/ exists hgrc,
              config_read Demo.broken_hgrc hgrcpath Demo.start = Ok hgrc
              /\ ((has_option hgrc "krb" "keytab" = true
                   /\ get hgrc "krb" "keytab" = Err e)
                  \/ ((has_option hgrc "krb" "keytab" = false
                       \/ exists v, get hgrc "krb" "keytab" = Ok v)
                      /\ has_option hgrc "krb" "principal" = true
                      /\ get hgrc "krb" "principal" = Err e))))
    \/ exists argv, SubprocessRun argv (Err e) ∈ evs in
  (forall c, o <> SysExit c)
  /\ (forall e, o = Raise e <-> raised e)
  /\ (o = Return tt <-> forall e, ~ raised e).
Proof.
  destruct (KerberosAuthHandler.__init__ _ _) as [[o p'] evs] eqn:E.
  exact (provisioner_raises_what_collaborators_raise Demo.broken_hgrc Demo.start
           o p' evs E).
Defined.


(** * Further properties of the handlers *)

Section HandlerRuns.
Context {W : Type} (P : platform W).
Implicit Types (p : process W) (req : request) (hdrs : message).

Ltac kerberos_run :=
  unfold KerberosAuthHandler.http_error_401, KerberosAuthHandler.server_token;
  eff_run.

Ltac sspi_run :=
  unfold SSPIAuthHandler.http_error_401, SSPIAuthHandler.negotiate;
  unfold Eff.try_except;
  eff_run.

Ltac in_events H :=
  repeat (apply elem_of_cons in H as [H|H]; try discriminate);
  try (by apply elem_of_nil in H).

(** X1.  Neither handler retries: a run resubmits the request at most
    once, and it leaves [os.environ] as it found it. *)
Theorem at_most_one_resubmission req hdrs p o p' evs :
  KerberosAuthHandler.http_error_401 P req hdrs p = (o, p', evs)
  \/ SSPIAuthHandler.http_error_401 P req hdrs p = (o, p', evs) ->
  (length (resubmissions evs) <= 1)%nat /\ environ p' = environ p.
Proof.
  intros [H|H]; revert H.
  - kerberos_run; intros [= <- <- <-]; cbn; split; (lia || reflexivity).
  - sspi_run; intros [= <- <- <-]; cbn; split; (lia || reflexivity).
Qed.

(** X2.  When the Kerberos handler declines (returns [None]) or exits, the
    request is as it was: no header was added and nothing was resubmitted.
    The only calls made are [authGSSClientInit] and the step that
    failed. *)
Theorem kerberos_decline_leaves_request req hdrs p o p' evs :
  KerberosAuthHandler.http_error_401 P req hdrs p = (o, p', evs) ->
  o = Return None \/ (exists c, o = SysExit c) ->
  existsb touches_request evs = false
  /\ (length evs <= 3)%nat.
Proof.
  kerberos_run; intros [= <- <- <-] [Ho | [c Ho]]; try discriminate;
    cbn; split; (lia || reflexivity).
Qed.

(** X3.  The SSPI handler swallows a failed resubmission: when
    [self.parent.open] raises, the exception is printed, the handler exits
    or declines as for any other error, and the [Authorization] header it
    added stays on the request. *)
Theorem sspi_swallows_failed_resubmission req hdrs p o p' evs req' e :
  SSPIAuthHandler.http_error_401 P req hdrs p = (o, p', evs) ->
  ParentOpen req' (Err e) ∈ evs ->
  o = (if major P =? 3 then SysExit 1 else Return None)
  /\ last evs = Some (Print ("Kerberos error: " ++ exn_str e))
  /\ exists v, AddHeader "Authorization" v ∈ evs
               /\ headers req' !! "Authorization" = Some v.
Proof.
  sspi_run; intros [= <- <- <-]; cbn [app]; intros Hin; in_events Hin;
    injection Hin as -> ->;
    (split; [reflexivity|]); (split; [reflexivity|]);
    eexists; (split; [do 3 apply list_elem_of_further; apply list_elem_of_here|]);
    apply lookup_insert_eq.
Qed.

(** X4.  In the Kerberos handler only a [GSSError] of the first step is
    caught.  Any other failed call ends the run there: its exception
    reaches the caller, and nothing is printed about it. *)
Theorem kerberos_propagates_other_failures req hdrs p o p' evs ev e :
  KerberosAuthHandler.http_error_401 P req hdrs p = (o, p', evs) ->
  ev ∈ evs ->
  failure_of ev = Some e ->
  is_GSSError e = false \/ evs !! 1%nat <> Some ev ->
  o = Raise e /\ last evs = Some ev /\ existsb is_print evs = false.
Proof.
  kerberos_run; intros [= <- <- <-]; cbn [app]; intros Hin Hfail Hcase;
    in_events Hin; subst ev; try discriminate;
    injection Hfail as <-;
    try (by repeat split);
    destruct Hcase as [Hcase|Hcase]; try congruence; by destruct Hcase.
Qed.

(** X5.  A missing [USERDNSDOMAIN] stops the SSPI handler after the name
    lookup: the [KeyError] is printed, no [ClientAuth] is built, no header
    is added and nothing is resubmitted. *)
Theorem sspi_missing_domain req hdrs p h names w :
  "Negotiate" ∈ supported_schemes (major P) hdrs ->
  PyStr.split ":" (host req) !! 0%nat = Some h ->
  gethostbyname_ex P h p = (Ok names, w) ->
  environ p !! "USERDNSDOMAIN" = None ->
  SSPIAuthHandler.http_error_401 P req hdrs p =
    (if major P =? 3 then SysExit 1 else Return None,
     mk_process (environ p) w,
     [GetHostByNameEx h (Ok names); Print "Kerberos error: 'USERDNSDOMAIN'"]).
Proof.
  intros Hneg Hh Hdns Henv. apply contains_elem_of in Hneg.
  unfold SSPIAuthHandler.http_error_401, SSPIAuthHandler.negotiate.
  rewrite Hneg. cbn [negb]. unfold Eff.try_except.
  eff_simpl. rewrite Hh. eff_simpl. rewrite Hdns. eff_simpl.
  cbn [environ]. rewrite Henv. eff_simpl.
  destruct (major P =? 3); reflexivity.
Qed.

(** X6.  The step made before the resubmission is given the first element
    of the challenge list, whatever scheme it names; and every step and
    response of a run works on the context [authGSSClientInit] returned. *)
Theorem kerberos_first_step_and_context req hdrs p o p' evs :
  KerberosAuthHandler.http_error_401 P req hdrs p = (o, p', evs) ->
  (forall ctx challenge r,
     evs !! 1%nat = Some (AuthGSSClientStep ctx challenge r) ->
     supported_schemes (major P) hdrs !! 0%nat = Some challenge)
  /\ (forall service rc ctx,
        evs !! 0%nat = Some (AuthGSSClientInit service (Ok (rc, ctx))) ->
        forall ev c, ev ∈ evs -> context_of ev = Some c -> c = ctx).
Proof.
  kerberos_run; intros [= <- <- <-]; cbn [app]; split.
  all: try (intros ctx challenge r [=]; subst; done).
  all: intros service rc ctx Hinit; try discriminate.
  all: injection Hinit as <- ->; intros ev c Hin Hc; in_events Hin; subst ev.
  all: cbn in Hc; congruence.
Qed.

End HandlerRuns.

(** * Splitting and stripping *)

Section Strings.
Implicit Types (s a b : string) (c : ascii).

Lemma append_cons c a b : String c a ++ b = String c (a ++ b).
Proof. reflexivity. Qed.

Lemma append_nil_l s : "" ++ s = s.
Proof. reflexivity. Qed.

Lemma append_nil_r s : s ++ "" = s.
Proof.
  induction s as [|c s IH]; [reflexivity|]. by rewrite append_cons, IH.
Qed.

Lemma append_assoc a b s : (a ++ b) ++ s = a ++ (b ++ s).
Proof.
  induction a as [|c a IH]; [reflexivity|]. by rewrite !append_cons, IH.
Qed.

Ltac append_simpl := rewrite ?append_cons, ?append_nil_l; cbn.

(** [split] cuts at every separator: the pieces of [a + sep + b] are the
    pieces of [a] followed by the pieces of [b]. *)
Lemma split_app sep a b :
  PyStr.split sep (a ++ String sep b) = (PyStr.split sep a ++ PyStr.split sep b)%list.
Proof.
  induction a as [|c a IH]; append_simpl.
  - by rewrite Ascii.eqb_refl.
  - destruct (Ascii.eqb c sep); [by rewrite IH|].
    rewrite IH. by destruct (split_head sep a) as (x & xs & ->).
Qed.

Lemma split_free sep s : free_of sep s = true -> PyStr.split sep s = [s].
Proof.
  induction s as [|c s IH]; cbn; [reflexivity|].
  intros [Hc Hs]%andb_prop. apply negb_true_iff in Hc. rewrite Hc.
  by rewrite (IH Hs).
Qed.

Lemma split_first sep a b :
  free_of sep a = true -> PyStr.split sep (a ++ String sep b) !! 0%nat = Some a.
Proof. intros H. by rewrite split_app, (split_free _ _ H). Qed.

Lemma lstrip_spec major s :
  exists ws, s = ws ++ PyStr.lstrip major s /\ all_space major ws = true.
Proof.
  induction s as [|c s (ws & E & Hws)]; [by exists ""|].
  cbn. destruct (PyStr.isspace major c) eqn:Hc.
  - exists (String c ws). rewrite append_cons, <- E. split; [reflexivity|].
    unfold all_space in *. cbn. by rewrite Hc.
  - by exists "".
Qed.

Lemma rstrip_spec major s :
  exists ws, s = PyStr.rstrip major s ++ ws /\ all_space major ws = true.
Proof.
  induction s as [|c s (ws & E & Hws)]; [by exists ""|].
  cbn. destruct (PyStr.isspace major c && PyStr.is_empty (PyStr.rstrip major s)) eqn:Hc.
  - apply andb_prop in Hc as [Hc He].
    destruct (PyStr.rstrip major s); [|discriminate].
    rewrite append_nil_l in E. subst s.
    exists (String c ws). split; [reflexivity|].
    unfold all_space in *. cbn. by rewrite Hc.
  - exists ws. by rewrite append_cons, <- E.
Qed.

Lemma lstrip_padded major ws s :
  all_space major ws = true -> PyStr.lstrip major (ws ++ s) = PyStr.lstrip major s.
Proof.
  induction ws as [|c ws IH]; [reflexivity|].
  unfold all_space. rewrite append_cons. cbn.
  intros [Hc Hws]%andb_prop. rewrite Hc. by apply IH.
Qed.

Lemma rstrip_all_space major ws :
  all_space major ws = true -> PyStr.rstrip major ws = "".
Proof.
  induction ws as [|c ws IH]; [reflexivity|].
  unfold all_space. cbn. intros [Hc Hws]%andb_prop.
  rewrite (IH Hws), Hc. reflexivity.
Qed.

Lemma rstrip_padded major s ws :
  all_space major ws = true -> PyStr.rstrip major (s ++ ws) = PyStr.rstrip major s.
Proof.
  intros Hws. induction s as [|c s IH].
  - rewrite append_nil_l. rewrite (rstrip_all_space _ _ Hws). reflexivity.
  - rewrite append_cons. cbn. by rewrite IH.
Qed.

Lemma strip_Negotiate major ws1 ws2 :
  all_space major ws1 = true -> all_space major ws2 = true ->
  PyStr.strip major (ws1 ++ "Negotiate" ++ ws2) = "Negotiate".
Proof.
  intros H1 H2. unfold PyStr.strip. rewrite (lstrip_padded _ _ _ H1).
  replace (PyStr.lstrip major ("Negotiate" ++ ws2)) with ("Negotiate" ++ ws2).
  - rewrite (rstrip_padded _ _ _ H2).
    unfold PyStr.rstrip, PyStr.isspace. by destruct (major <? 3).
  - rewrite append_cons. cbn. unfold PyStr.isspace. by destruct (major <? 3).
Qed.

(** X7.  The test both handlers make: [Negotiate] counts as offered exactly
    when one of the comma-separated pieces of the header is the word
    [Negotiate] with nothing but white space around it. *)
Theorem negotiate_offered_iff major hdrs :
  "Negotiate" ∈ supported_schemes major hdrs <->
  exists ws1 ws2,
    all_space major ws1 = true /\ all_space major ws2 = true
    /\ ws1 ++ "Negotiate" ++ ws2
       ∈ PyStr.split "," (get_header hdrs "WWW-Authenticate" "").
Proof.
  unfold supported_schemes. rewrite list_elem_of_fmap. split.
  - intros (seg & Hstrip & Hin). unfold PyStr.strip in Hstrip.
    destruct (lstrip_spec major seg) as (ws1 & E1 & H1).
    destruct (rstrip_spec major (PyStr.lstrip major seg)) as (ws2 & E2 & H2).
    exists ws1, ws2. repeat split; try done.
    rewrite Hstrip, <- E2, <- E1. exact Hin.
  - intros (ws1 & ws2 & H1 & H2 & Hin).
    eexists. split; [|exact Hin]. symmetry. by apply strip_Negotiate.
Qed.

(** The pieces of a comma-joined header are those of its parts, so the
    position of [Negotiate] in the list does not matter. *)
Lemma supported_schemes_join major a b :
  map (PyStr.strip major) (PyStr.split "," (a ++ "," ++ b)) =
  (map (PyStr.strip major) (PyStr.split "," a)
   ++ map (PyStr.strip major) (PyStr.split "," b))%list.
Proof. rewrite append_cons, append_nil_l. by rewrite split_app, map_app. Qed.

Lemma free_of_app c a b :
  free_of c (a ++ b) = free_of c a && free_of c b.
Proof.
  induction a as [|x a IH]; [reflexivity|].
  rewrite append_cons. unfold free_of in *. cbn. by rewrite IH, andb_assoc.
Qed.

Lemma all_space_cons major c s :
  all_space major (String c s) = PyStr.isspace major c && all_space major s.
Proof. reflexivity. Qed.

Lemma isspace_space major : PyStr.isspace major " " = true.
Proof. unfold PyStr.isspace. by destruct (major <? 3). Qed.

Lemma rev_app_rev_app a b s :
  String.rev_app (String.rev_app a b) s = String.rev_app b (a ++ s).
Proof.
  revert b s. induction a as [|c a IH]; intros b s; [reflexivity|].
  cbn [String.rev_app]. rewrite IH. by rewrite append_cons.
Qed.

Lemma rev_rev_app a : String.rev (String.rev_app a "") = a.
Proof.
  unfold String.rev. rewrite rev_app_rev_app. cbn. apply append_nil_r.
Qed.

Lemma is_empty_rev_app a b :
  PyStr.is_empty (String.rev_app a b) = PyStr.is_empty a && PyStr.is_empty b.
Proof.
  revert b. induction a as [|c a IH]; intros b; [reflexivity|].
  cbn [String.rev_app]. rewrite IH. cbn. apply andb_false_r.
Qed.

(** Reading a run of non-space characters only grows the current field. *)
Lemma split_ws_from_word major w cur rest :
  forallb (fun c => negb (PyStr.isspace major c)) (list_ascii_of_string w) = true ->
  PyStr.split_ws_from major cur (w ++ rest) =
  PyStr.split_ws_from major (String.rev_app w cur) rest.
Proof.
  revert cur. induction w as [|c w IH]; intros cur; [reflexivity|].
  cbn [list_ascii_of_string forallb]. intros [Hc Hw]%andb_prop.
  apply negb_true_iff in Hc. rewrite append_cons.
  cbn [PyStr.split_ws_from String.rev_app]. rewrite Hc. by apply IH.
Qed.

(** Two words with one space between them are two fields. *)
Lemma split_ws_two_words major w1 w2 :
  is_word major w1 = true -> is_word major w2 = true ->
  PyStr.split_ws major (w1 ++ " " ++ w2) = [w1; w2].
Proof.
  unfold is_word. intros [Hne1 Hw1]%andb_prop [Hne2 Hw2]%andb_prop.
  unfold PyStr.split_ws. rewrite (split_ws_from_word _ _ _ _ Hw1).
  rewrite append_cons, append_nil_l. cbn [PyStr.split_ws_from].
  rewrite isspace_space, is_empty_rev_app.
  apply negb_true_iff in Hne1. rewrite Hne1. cbn [andb].
  rewrite rev_rev_app. f_equal.
  rewrite <- (append_nil_r w2) at 1. rewrite (split_ws_from_word _ _ _ _ Hw2).
  cbn [PyStr.split_ws_from]. rewrite is_empty_rev_app.
  apply negb_true_iff in Hne2. rewrite Hne2. cbn [andb].
  by rewrite rev_rev_app.
Qed.

End Strings.

Section Challenges.
Context {W : Type} (P : platform W).
Implicit Types (p : process W) (req : request) (hdrs : message).

(** X8.  A challenge that carries a token, [Negotiate <token>], is not
    taken as an offer of [Negotiate]: the piece of the header is compared
    as a whole.  Both handlers decline it. *)
Theorem challenge_with_token_declined req hdrs p tok :
  msg_get hdrs "WWW-Authenticate" = Some ("Negotiate " ++ tok) ->
  free_of "," tok = true ->
  all_space (major P) tok = false ->
  SSPIAuthHandler.http_error_401 P req hdrs p =
    (Return None, p, [Print "Server does not support Kerberos authentication"])
  /\ KerberosAuthHandler.http_error_401 P req hdrs p =
    (Return None, p, [Print "Server does not support Kerberos authentication"]).
Proof.
  intros Hhdr Hcomma Htok.
  assert (PyStr.contains "Negotiate" (supported_schemes (major P) hdrs) = false) as Hno.
  { apply contains_not_elem_of. unfold supported_schemes, get_header.
    rewrite Hhdr, split_free by (rewrite free_of_app; by rewrite Hcomma).
    cbn [map]. intros Hin%list_elem_of_singleton.
    unfold PyStr.strip in Hin.
    destruct (rstrip_spec (major P) (PyStr.lstrip (major P) ("Negotiate " ++ tok)))
      as (ws & E & Hws).
    rewrite <- Hin in E.
    replace (PyStr.lstrip (major P) ("Negotiate " ++ tok))
      with ("Negotiate " ++ tok) in E
      by (rewrite append_cons; cbn; unfold PyStr.isspace;
          by destruct (major P <? 3)).
    rewrite !append_cons, !append_nil_l in E. injection E as <-.
    rewrite all_space_cons, isspace_space in Hws. cbn in Hws. congruence. }
  unfold SSPIAuthHandler.http_error_401, KerberosAuthHandler.http_error_401.
  rewrite Hno. cbn [negb]. split; reflexivity.
Qed.

(** X9.  From a final challenge of the usual form, [<scheme> <token>]
    alone or followed by a comma and more, [server_token] takes
    [<token>]: what follows the first comma is ignored, and the scheme is
    not looked at. *)
Theorem server_token_of_challenge resp p scheme tok rest :
  msg_get (info resp) "WWW-Authenticate" = Some (scheme ++ " " ++ tok)
  \/ msg_get (info resp) "WWW-Authenticate" = Some ((scheme ++ " " ++ tok) ++ "," ++ rest) ->
  is_word (major P) scheme = true -> is_word (major P) tok = true ->
  free_of "," scheme = true -> free_of "," tok = true ->
  KerberosAuthHandler.server_token P resp p = (Return tok, p, []).
Proof.
  intros Hhdr Hs Ht Hcs Hct.
  assert (free_of "," (scheme ++ " " ++ tok) = true) as Hfree.
  { rewrite free_of_app, Hcs. rewrite append_cons, append_nil_l.
    unfold free_of in *. cbn. exact Hct. }
  assert (PyStr.split "," (get_header (info resp) "WWW-Authenticate" "") !! 0%nat
          = Some (scheme ++ " " ++ tok)) as Hfirst.
  { unfold get_header. destruct Hhdr as [-> | ->].
    - by rewrite (split_free _ _ Hfree).
    - rewrite append_cons, append_nil_l. by apply split_first. }
  unfold KerberosAuthHandler.server_token. eff_simpl. rewrite Hfirst.
  eff_simpl. by rewrite (split_ws_two_words _ _ _ Hs Ht).
Qed.

(** X10.  The Kerberos service name is [HTTP@] and the part of the
    request host before its first colon (the whole host when it has none):
    the host name for [name] and [name:port], the text before the first
    colon for anything else.  The first call of a run that goes on is
    [authGSSClientInit] with that name. *)
Theorem kerberos_service_name req hdrs p h port :
  "Negotiate" ∈ supported_schemes (major P) hdrs ->
  host req = h \/ host req = h ++ ":" ++ port ->
  free_of ":" h = true ->
  exists rest,
    snd (KerberosAuthHandler.http_error_401 P req hdrs p) =
    AuthGSSClientInit ("HTTP@" ++ h) (fst (authGSSClientInit P ("HTTP@" ++ h) p)) :: rest.
Proof.
  intros Hneg Hhost Hfree. apply contains_elem_of in Hneg.
  assert (PyStr.split ":" (host req) !! 0%nat = Some h) as Hh.
  { destruct Hhost as [-> | ->].
    - by rewrite (split_free _ _ Hfree).
    - rewrite append_cons, append_nil_l. by apply split_first. }
  unfold KerberosAuthHandler.http_error_401. rewrite Hneg. cbn [negb].
  eff_simpl. rewrite Hh. eff_simpl.
  destruct (authGSSClientInit P ("HTTP@" ++ h) p) as [[a|e] w]; cbn [fst].
  - unfold Eff.after. cbn [snd app]. by eexists.
  - by eexists.
Qed.

(** X11.  The SSPI handler resolves the part of the request host before
    its first colon (the whole host when it has none), and builds the target
    name [HTTP/<canonical name>@<USERDNSDOMAIN>] from the name the resolver
    gives back. *)
Theorem sspi_target_name req hdrs p h port names w d :
  "Negotiate" ∈ supported_schemes (major P) hdrs ->
  host req = h \/ host req = h ++ ":" ++ port ->
  free_of ":" h = true ->
  gethostbyname_ex P h p = (Ok names, w) ->
  environ p !! "USERDNSDOMAIN" = Some d ->
  let spn := "HTTP/" ++ fst (fst names) ++ "@" ++ d in
  exists rest,
    snd (SSPIAuthHandler.http_error_401 P req hdrs p) =
    GetHostByNameEx h (Ok names)
    :: NewClientAuth "Kerberos" spn
         (fst (ClientAuth P "Kerberos" spn (mk_process (environ p) w)))
    :: rest.
Proof.
  intros Hneg Hhost Hfree Hdns Hdom spn. apply contains_elem_of in Hneg.
  assert (PyStr.split ":" (host req) !! 0%nat = Some h) as Hh.
  { destruct Hhost as [-> | ->].
    - by rewrite (split_free _ _ Hfree).
    - rewrite append_cons, append_nil_l. by apply split_first. }
  unfold SSPIAuthHandler.http_error_401, SSPIAuthHandler.negotiate.
  rewrite Hneg. cbn [negb]. unfold Eff.try_except.
  eff_simpl. rewrite Hh. eff_simpl. rewrite Hdns. eff_simpl.
  cbn [environ]. rewrite Hdom. eff_simpl. fold spn.
  destruct (ClientAuth P "Kerberos" spn _) as [[ca|e] w1]; cbn [fst].
  - eff_run; cbn [snd app]; by eexists.
  - eff_run; cbn [snd app]; by eexists.
Qed.

End Challenges.

(** * Further properties of the ticket provisioner *)

Section ProvisionerRuns.
Context {W : Type} (P : platform W).
Implicit Types p : process W.

Ltac init_run :=
  unfold KerberosAuthHandler.__init__, KerberosAuthHandler.usable,
    KerberosAuthHandler.provision;
  eff_run.

Ltac in_events H :=
  repeat (apply elem_of_cons in H as [H|H]; try discriminate);
  try (by apply elem_of_nil in H).

(** X12.  With a usable keytab, [__init__] points [KRB5CCNAME] at
    [/tmp/krb5cc_<euid>] before it does anything else, whatever [klist] and
    [kinit] then do; the other variables are untouched.  [klist] is run
    first, on that cache, in the environment already changed. *)
Theorem keytab_sets_cache_first p hgrc v principal :
  isfile P (KerberosAuthHandler.hgrcpath P p) p = true ->
  config_read P (KerberosAuthHandler.hgrcpath P p) p = Ok hgrc ->
  has_option hgrc "krb" "keytab" = true ->
  get hgrc "krb" "keytab" = Ok v ->
  PyStr.is_empty (expanduser P v p) = false ->
  isfile P (expanduser P v p) p = true ->
  has_option hgrc "krb" "principal" = true ->
  get hgrc "krb" "principal" = Ok principal ->
  PyStr.is_empty principal = false ->
  let krb5ccname := "/tmp/krb5cc_" ++ PyStr.str_int (geteuid P p) in
  let p1 := mk_process (<["KRB5CCNAME" := krb5ccname]> (environ p)) (os p) in
  let klist := ["/usr/bin/klist"; "-c"; krb5ccname; "-s"] in
  exists o p' rest,
    KerberosAuthHandler.__init__ P p =
      (o, p', SubprocessRun klist (fst (subprocess_run P klist p1)) :: rest)
    /\ environ p' = <["KRB5CCNAME" := krb5ccname]> (environ p).
Proof.
  intros Hfile Hcfg Hk Hkv Hkne Hkfile Hpr Hprv Hprne krb5ccname p1 klist.
  unfold KerberosAuthHandler.__init__, KerberosAuthHandler.usable,
    KerberosAuthHandler.provision, KerberosAuthHandler.klist_argv.
  eff_simpl. rewrite Hfile. eff_simpl. rewrite Hcfg. eff_simpl.
  rewrite Hk, Hpr. eff_simpl. rewrite Hkv. eff_simpl. rewrite Hprv. eff_simpl.
  rewrite Hkne. eff_simpl. rewrite Hkfile. eff_simpl. rewrite Hprne. eff_simpl.
  fold krb5ccname. fold p1. fold klist.
  destruct (subprocess_run P klist p1) as [[rc|e] w] eqn:Hklist; cbn [fst];
    eff_run; by eexists _, _, _.
Qed.

(** X13.  [__init__] runs at most two subprocesses and nothing else but
    [print]; and [kinit] is only ever run after a [klist] on the same cache
    that exited with a non-zero status. *)
Theorem kinit_only_after_failed_klist p o p' evs :
  KerberosAuthHandler.__init__ P p = (o, p', evs) ->
  forallb (fun e => is_subprocess e || is_print e) evs = true
  /\ (length (List.filter is_subprocess evs) <= 2)%nat
  /\ (forall ev, ev ∈ evs -> is_kinit ev = true ->
        exists krb5ccname rc keytab principal r,
          evs !! 0%nat =
            Some (SubprocessRun ["/usr/bin/klist"; "-c"; krb5ccname; "-s"] (Ok rc))
          /\ rc <> 0
          /\ ev = SubprocessRun
                    ["/usr/bin/kinit"; "-k"; "-c"; krb5ccname; "-t"; keytab; principal] r).
Proof.
  init_run; intros [= <- <- <-]; (split; [reflexivity|]); (split; [cbn; lia|]);
    intros ev Hin Hk; in_events Hin; subst ev; try discriminate;
    eexists _, _, _, _, _; (split; [reflexivity|]); (split; [|reflexivity]);
    intros ->; discriminate.
Qed.

(** X14.  A [kinit] that fails is not reported: when it exits with a
    non-zero status [__init__] returns normally and prints nothing more. *)
Theorem failed_kinit_is_silent p o p' evs argv rc :
  KerberosAuthHandler.__init__ P p = (o, p', evs) ->
  SubprocessRun argv (Ok rc) ∈ evs ->
  is_kinit (SubprocessRun argv (Ok rc)) = true ->
  rc <> 0 ->
  o = Return tt /\ last evs = Some (SubprocessRun argv (Ok rc)).
Proof.
  init_run; intros [= <- <- <-] Hin Hk Hrc; in_events Hin;
    try discriminate; injection Hin as -> ->; try done.
  match goal with H : (_ =? 0) = true |- _ => apply Z.eqb_eq in H end.
  congruence.
Qed.

(** X15.  An empty value counts as no value: when the keytab option
    expands to the empty string, or the principal option is empty,
    [__init__] does nothing. *)
Theorem empty_option_is_noop p hgrc :
  config_read P (KerberosAuthHandler.hgrcpath P p) p = Ok hgrc ->
  (exists v, get hgrc "krb" "keytab" = Ok v /\ expanduser P v p = "")
  \/ get hgrc "krb" "principal" = Ok "" ->
  exists o, KerberosAuthHandler.__init__ P p = (o, p, []).
Proof.
  intros Hcfg Hempty. revert Hcfg. init_run; intros; simplify_eq;
    try (by eexists).
  all: destruct Hempty as [(v & Hv & Hex) | Hpr].
  all: repeat match goal with
       | H1 : ?x = Ok ?a, H2 : ?x = Ok ?b |- _ =>
           assert (b = a) as -> by congruence; clear H2
       end.
  all: try rewrite Hex in *; discriminate.
Qed.

End ProvisionerRuns.

(** * Loading and registration *)

Section Registration.
Variable major : Z.
Variable importable : string -> option exn.

Lemma bind_import_as {B} module name (k : unit -> Eff.M Setup.interpreter B) p :
  Eff.bind (Setup.import_as importable module name) k p =
  match importable module with
  | None =>
      k tt (mk_process (environ p)
              (Setup.mk_interpreter ({[name]} ∪ Setup.globals (os p))
                 (Setup.handlerfuncs (os p))))
  | Some e => (Raise e, p, [])
  end.
Proof.
  unfold Eff.bind, Setup.import_as.
  destruct (importable module); [reflexivity | apply after_nil].
Qed.

Lemma import_as_run module name p :
  Setup.import_as importable module name p =
  match importable module with
  | None =>
      (Return tt,
       mk_process (environ p)
         (Setup.mk_interpreter ({[name]} ∪ Setup.globals (os p))
            (Setup.handlerfuncs (os p))),
       [])
  | Some e => (Raise e, p, [])
  end.
Proof. reflexivity. Qed.

Lemma bind_append_handler {B} h (k : unit -> Eff.M Setup.interpreter B) p :
  Eff.bind (Setup.append_handler h) k p =
  k tt (mk_process (environ p)
          (Setup.mk_interpreter (Setup.globals (os p))
             (Setup.handlerfuncs (os p) ++ [h])%list)).
Proof. unfold Eff.bind, Setup.append_handler. apply after_nil. Qed.

Lemma append_handler_run h p :
  Setup.append_handler h p =
  (Return tt,
   mk_process (environ p)
     (Setup.mk_interpreter (Setup.globals (os p))
        (Setup.handlerfuncs (os p) ++ [h])%list),
   []).
Proof. reflexivity. Qed.

Lemma try_except_run {A} (body : Eff.M Setup.interpreter A) catches handler p :
  Eff.try_except body catches handler p =
  match body p with
  | (Return a, p', evs) => (Return a, p', evs)
  | (Raise e, p', evs) =>
      if catches e then Eff.after evs (handler e p') else (Raise e, p', evs)
  | (SysExit c, p', evs) => (SysExit c, p', evs)
  end.
Proof.
  unfold Eff.try_except. by destruct (body p) as [[[a|e|c] p1] e1].
Qed.

Ltac setup_simpl :=
  repeat first
    [ rewrite bind_import_as | rewrite import_as_run | rewrite try_except_run
    | rewrite bind_append_handler | rewrite append_handler_run
    | progress eff_simpl
    | progress cbn [os environ Setup.globals Setup.handlerfuncs] ].

Ltac setup_case :=
  match goal with
  | |- context [match importable ?m with _ => _ end] =>
      destruct (importable m) eqn:?
  | |- context [if Setup.is_ImportError ?e then _ else _] =>
      destruct (Setup.is_ImportError e) eqn:?
  | |- context [if ?c then _ else _] => destruct c eqn:?
  end.

Ltac setup_run :=
  unfold Setup.load, Setup.import_independent, Setup.import_specific,
    Setup.uisetup, Setup.in_globals, Setup.fresh;
  setup_simpl; repeat (setup_case; setup_simpl).

Ltac decide_globals :=
  repeat match goal with
  | |- context [bool_decide (?x ∈ ?g)] =>
      let b := eval vm_compute in (bool_decide (x ∈ g)) in
      change (bool_decide (x ∈ g)) with b
  end.

(** X16.  When the module loads, [uisetup] registers at least one handler
    after those already there: [SSPIAuthHandler] when [sspi] could be
    imported, and [KerberosAuthHandler] when [sspi] or [socket] could not,
    so both when only [socket] is missing. *)
Theorem uisetup_registers_what_loaded hs p1 evs1 :
  Setup.load major importable (Setup.fresh hs) = (Return tt, p1, evs1) ->
  exists p2,
    Setup.uisetup p1 = (Return tt, p2, [])
    /\ Setup.handlerfuncs (os p2) =
       (hs
        ++ (match importable "sspi.ClientAuth" with
            | None => [Setup.SSPIAuthHandler]
            | Some _ => []
            end)
        ++ (match importable "sspi.ClientAuth", importable "socket" with
            | None, None => []
            | _, _ => [Setup.KerberosAuthHandler]
            end))%list.
Proof.
  unfold Setup.load, Setup.import_independent, Setup.import_specific, Setup.fresh.
  setup_simpl; repeat (setup_case; setup_simpl);
    intros H; try discriminate H; injection H as <- <-;
    unfold Setup.uisetup, Setup.in_globals; setup_simpl;
    cbn [os environ Setup.globals Setup.handlerfuncs]; decide_globals;
    cbn iota; setup_simpl; eexists; (split; [reflexivity|]);
    cbn [os Setup.handlerfuncs]; by rewrite <- ?app_assoc, ?app_nil_r.
Qed.

(** X17.  When neither security module can be imported, because [sspi] or
    [socket] is missing and [kerberos] is too, loading stops with
    [sys.exit(1)] after one line that reports the [kerberos] import error;
    no handler is registered. *)
Theorem no_security_module_exits p e1 e2 :
  importable "sspi.ClientAuth" = Some e1
  \/ (importable "sspi.ClientAuth" = None /\ importable "socket" = Some e1) ->
  Setup.is_ImportError e1 = true ->
  importable "kerberos" = Some e2 ->
  Setup.is_ImportError e2 = true ->
  exists p',
    Setup.import_specific importable p =
      (SysExit 1, p',
       [Print ("pywin32 (Windows) or python(3)-kerberos (Linux/macOS) module not found, error was: "
               ++ exn_str e2)])
    /\ Setup.handlerfuncs (os p') = Setup.handlerfuncs (os p).
Proof.
  intros Hwin He1 Hkrb He2. unfold Setup.import_specific.
  setup_simpl.
  destruct Hwin as [Hsspi | [Hsspi Hsock]].
  - rewrite Hsspi, He1. setup_simpl. rewrite Hkrb, He2. setup_simpl.
    by eexists.
  - rewrite Hsspi. setup_simpl. rewrite Hsock, He1. setup_simpl.
    rewrite Hkrb, He2. setup_simpl. by eexists.
Qed.

Lemma uisetup_run (p : process Setup.interpreter) :
  Setup.uisetup p =
  (Return tt,
   mk_process (environ p)
     (Setup.mk_interpreter (Setup.globals (os p))
        (Setup.handlerfuncs (os p)
         ++ (if bool_decide ("ClientAuth" ∈ Setup.globals (os p))
             then [Setup.SSPIAuthHandler] else [])
         ++ (if bool_decide ("kerberos" ∈ Setup.globals (os p))
             then [Setup.KerberosAuthHandler] else []))%list),
   []).
Proof.
  unfold Setup.uisetup, Setup.in_globals. rewrite bind_ask.
  destruct (bool_decide ("ClientAuth" ∈ Setup.globals (os p))) eqn:Hs.
  - rewrite bind_append_handler, bind_ask. cbn [os Setup.globals].
    destruct (bool_decide ("kerberos" ∈ Setup.globals (os p))).
    + rewrite append_handler_run. cbn [os environ Setup.globals Setup.handlerfuncs].
      by rewrite <- app_assoc.
    + rewrite ret_run. by rewrite app_nil_r.
  - rewrite bind_ret, bind_ask.
    destruct (bool_decide ("kerberos" ∈ Setup.globals (os p))).
    + by rewrite append_handler_run.
    + rewrite ret_run. destruct p as [env [g hf]]. cbn. by rewrite app_nil_r.
Qed.

(** X18.  [uisetup] only appends: it keeps the handlers already registered,
    in order, adds [SSPIAuthHandler] and then [KerberosAuthHandler]
    according to the names bound, and does not look at what is registered
    already, so a second call registers the same handlers again. *)
Theorem uisetup_appends (p : process Setup.interpreter) :
  let g := Setup.globals (os p) in
  let new :=
    ((if bool_decide ("ClientAuth" ∈ g) then [Setup.SSPIAuthHandler] else [])
     ++ (if bool_decide ("kerberos" ∈ g) then [Setup.KerberosAuthHandler] else []))%list in
  exists p1 p2,
    Setup.uisetup p = (Return tt, p1, [])
    /\ Setup.handlerfuncs (os p1) = (Setup.handlerfuncs (os p) ++ new)%list
    /\ Setup.globals (os p1) = g
    /\ Setup.uisetup p1 = (Return tt, p2, [])
    /\ Setup.handlerfuncs (os p2) = (Setup.handlerfuncs (os p) ++ new ++ new)%list.
Proof.
  intros g new. eexists _, _.
  split; [apply uisetup_run|]. split; [reflexivity|]. split; [reflexivity|].
  split; [apply uisetup_run|].
  cbn [os Setup.handlerfuncs Setup.globals]. fold g. fold new.
  by rewrite <- app_assoc.
Qed.

End Registration.

(** * The shape of the token sent *)

Section TokenShape.
Import Base64.

Lemma length_string_of_list_ascii l :
  String.length (string_of_list_ascii l) = length l.
Proof. induction l as [|c l IH]; cbn; [reflexivity | by rewrite IH]. Qed.

Lemma digit_in_alphabet n : digit n ∈ alphabet \/ digit n = pad.
Proof.
  unfold digit.
  destruct (nth_in_or_default (N.to_nat n) alphabet pad) as [Hin | ->];
    [left; by apply list_elem_of_In | by right].
Qed.

Lemma encode_groups_shape bs :
  length (encode_groups bs) = (4 * ((length bs + 2) / 3))%nat
  /\ Forall (fun c => c ∈ alphabet \/ c = pad) (encode_groups bs).
Proof.
  induction bs as [bs IH] using (induction_ltof1 _ (@length byte)).
  unfold ltof in IH.
  destruct bs as [|a [|b [|c rest]]]; cbn [encode_groups].
  - split; [reflexivity | apply List.Forall_nil].
  - split; [reflexivity|].
    repeat (apply List.Forall_cons; [first [apply digit_in_alphabet | by right]|]).
    apply List.Forall_nil.
  - split; [reflexivity|].
    repeat (apply List.Forall_cons; [first [apply digit_in_alphabet | by right]|]).
    apply List.Forall_nil.
  - destruct (IH rest) as [Hlen Hall]; [cbn [length]; lia|].
    split.
    + cbn [length]. rewrite Hlen.
      replace (S (S (S (length rest))) + 2)%nat
        with (1 * 3 + (length rest + 2))%nat by lia.
      rewrite Nat.div_add_l by lia. lia.
    + repeat (apply List.Forall_cons; [apply digit_in_alphabet|]). exact Hall.
Qed.

(** X19.  What the SSPI handler puts after [Negotiate]: four characters for
    every three bytes of the token, rounded up, each of them a base64 digit
    or the padding [=].  No white space or control character can reach the
    header, however long the token is. *)
Theorem authorization_value_shape data :
  let auth :=
    PyStr.replace newline "" (string_of_list_ascii (encodebytes data)) in
  String.length auth = (4 * ((length data + 2) / 3))%nat
  /\ Forall (fun c => c ∈ alphabet \/ c = pad) (list_ascii_of_string auth).
Proof.
  intros auth. subst auth. rewrite encodebytes_unbroken. unfold b64encode.
  rewrite length_string_of_list_ascii, list_ascii_of_string_of_list_ascii.
  apply encode_groups_shape.
Qed.

End TokenShape.

(** * What is sent, and what comes back to the caller *)

Section Outcomes.
Context {W : Type} (P : platform W).
Implicit Types (p : process W) (req : request) (hdrs : message).

Ltac in_events H :=
  repeat (apply elem_of_cons in H as [H|H]; try discriminate);
  try (by apply elem_of_nil in H).

(** X20.  The request the Kerberos handler sends again is the one it was
    given with one unredirected header more: [Authorization] is
    [Negotiate] and what [authGSSClientResponse] returned, printed as
    [None] when it returned nothing.  Host and ordinary headers are as they
    were. *)
Theorem kerberos_resubmitted_request req hdrs p o p' evs req' r :
  KerberosAuthHandler.http_error_401 P req hdrs p = (o, p', evs) ->
  ParentOpen req' r ∈ evs ->
  exists ctx response,
    AuthGSSClientResponse ctx (Ok response) ∈ evs
    /\ unredirected_hdrs req' =
         <["Authorization" := "Negotiate " ++ PyStr.str_opt response]>
           (unredirected_hdrs req)
    /\ headers req' = headers req
    /\ host req' = host req.
Proof.
  unfold KerberosAuthHandler.http_error_401, KerberosAuthHandler.server_token.
  eff_run; intros [= <- <- <-]; cbn [app]; intros Hin; in_events Hin;
    injection Hin as -> ->; eexists _, _;
    (split; [do 2 apply list_elem_of_further; apply list_elem_of_here|]);
    repeat split.
Qed.

(** X21.  The SSPI handler never raises: a run ends with the resubmitted
    response, or with a printed [Kerberos error] line followed by [None]
    or [sys.exit(1)], or, without [Negotiate] on offer, with [None]. *)
Theorem sspi_never_raises req hdrs p o p' evs :
  SSPIAuthHandler.http_error_401 P req hdrs p = (o, p', evs) ->
  (forall e, o <> Raise e)
  /\ ((exists resp req', o = Return (Some resp)
                         /\ last evs = Some (ParentOpen req' (Ok resp)))
      \/ (exists msg, last evs = Some (Print msg)
                      /\ (o = Return None \/ o = SysExit 1))).
Proof.
  unfold SSPIAuthHandler.http_error_401, SSPIAuthHandler.negotiate.
  unfold Eff.try_except.
  eff_run; intros [= <- <- <-]; (split; [discriminate|]);
    first [ left; by eexists _, _
          | right; eexists; split; [reflexivity|]; by (left + right) ].
Qed.

End Outcomes.

Section IndependentImports.
Variable major : Z.
Variable importable : string -> option exn.

(** X22.  When [mercurial.url] cannot be imported, loading prints the
    import error and stops with [sys.exit(1)] before either security
    module is tried: neither [ClientAuth] nor [kerberos] gets bound. *)
Theorem missing_mercurial_exits hs e :
  importable "os" = None -> importable "sys" = None ->
  importable "mercurial.url" = Some e ->
  Setup.is_ImportError e = true ->
  exists p',
    Setup.load major importable (Setup.fresh hs) =
      (SysExit 1, p',
       [Print ("Could not import all required modules, error was: " ++ exn_str e)])
    /\ ("ClientAuth" ∉ Setup.globals (os p'))
    /\ ("kerberos" ∉ Setup.globals (os p'))
    /\ Setup.handlerfuncs (os p') = hs.
Proof.
  intros Hos Hsys Hhg He.
  unfold Setup.load, Setup.import_independent, Setup.fresh.
  rewrite bind_import_as, Hos, bind_import_as, Hsys.
  rewrite bind_try_except, bind_import_as, Hhg, He.
  eff_simpl. eexists. split; [reflexivity|].
  cbn [os Setup.globals Setup.handlerfuncs].
  split; [|split]; [| |reflexivity];
    apply (bool_decide_eq_false_1 (_ ∈ _)); by vm_compute.
Qed.

End IndependentImports.

(** * The further properties on the concrete platforms *)

Lemma at_most_one_resubmission_witness :
  let '(_, p', evs) :=
    KerberosAuthHandler.http_error_401 Demo.py3_host Demo.req
      (Demo.challenge "Negotiate") Demo.start in
  (length (resubmissions evs) <= 1)%nat /\ environ p' = environ Demo.start.
Proof.
  destruct (KerberosAuthHandler.http_error_401 _ _ _ _) as [[o p'] evs] eqn:E.
  exact (at_most_one_resubmission Demo.py3_host Demo.req
           (Demo.challenge "Negotiate") Demo.start o p' evs (or_introl E)).
Defined.

Lemma kerberos_decline_leaves_request_witness :
  let '(_, _, evs) :=
    KerberosAuthHandler.http_error_401 (Demo.gss_failure 2) Demo.req
      (Demo.challenge "Negotiate") Demo.start in
  existsb touches_request evs = false /\ (length evs <= 3)%nat.
Proof.
  destruct (KerberosAuthHandler.http_error_401 _ _ _ _) as [[o p'] evs] eqn:E.
  apply (kerberos_decline_leaves_request (Demo.gss_failure 2) _ _ _ _ _ _ E).
  left. evaluate E. reflexivity.
Defined.

Lemma sspi_swallows_failed_resubmission_witness :
  let '(o, _, evs) :=
    SSPIAuthHandler.http_error_401 Cases.unreachable Demo.req
      (Demo.challenge "Negotiate") Demo.windows_env in
  o = SysExit 1
  /\ last evs = Some (Print "Kerberos error: <urlopen error timed out>")
  /\ exists v, AddHeader "Authorization" v ∈ evs
               /\ headers (add_header "Authorization" "Negotiate YIIB/wA=" Demo.req)
                    !! "Authorization" = Some v.
Proof.
  destruct (SSPIAuthHandler.http_error_401 _ _ _ _) as [[o p'] evs] eqn:E.
  apply (sspi_swallows_failed_resubmission Cases.unreachable _ _ _ _ _ _
           (add_header "Authorization" "Negotiate YIIB/wA=" Demo.req)
           Cases.url_error E).
  evaluate E. do 4 apply list_elem_of_further. apply list_elem_of_here.
Defined.

Lemma kerberos_propagates_other_failures_witness :
  let '(o, _, evs) :=
    KerberosAuthHandler.http_error_401 Cases.unreachable Demo.req
      (Demo.challenge "Negotiate") Demo.start in
  o = Raise Cases.url_error
  /\ last evs =
       Some (ParentOpen
               (add_unredirected_header "Authorization" "Negotiate YIIB/w==" Demo.req)
               (Err Cases.url_error))
  /\ existsb is_print evs = false.
Proof.
  destruct (KerberosAuthHandler.http_error_401 _ _ _ _) as [[o p'] evs] eqn:E.
  apply (kerberos_propagates_other_failures Cases.unreachable _ _ _ _ _ _ _ _ E).
  - evaluate E. do 4 apply list_elem_of_further. apply list_elem_of_here.
  - reflexivity.
  - left. reflexivity.
Defined.

Lemma sspi_missing_domain_witness :
  SSPIAuthHandler.http_error_401 Demo.py3_host Demo.req
    (Demo.challenge "Negotiate") Demo.start =
  (SysExit 1, Demo.start,
   [GetHostByNameEx "hg.example.org" (Ok ("hg.example.org", [], ["192.0.2.7"]));
    Print "Kerberos error: 'USERDNSDOMAIN'"]).
Proof.
  exact (sspi_missing_domain Demo.py3_host Demo.req (Demo.challenge "Negotiate")
           Demo.start "hg.example.org" ("hg.example.org", [], ["192.0.2.7"]) 0%nat
           ltac:(apply contains_elem_of; vm_compute; reflexivity)
           eq_refl eq_refl eq_refl).
Defined.

Lemma kerberos_first_step_and_context_witness :
  let '(_, _, evs) :=
    KerberosAuthHandler.http_error_401 Demo.py3_host Demo.req
      (Demo.challenge "Basic realm=hg, Negotiate") Demo.start in
  evs !! 1%nat = Some (AuthGSSClientStep 7%N "Basic realm=hg" (Ok 1))
  /\ supported_schemes 3 (Demo.challenge "Basic realm=hg, Negotiate") !! 0%nat
     = Some "Basic realm=hg"
  /\ forall ev c, ev ∈ evs -> context_of ev = Some c -> c = 7%N.
Proof.
  destruct (KerberosAuthHandler.http_error_401 _ _ _ _) as [[o p'] evs] eqn:E.
  pose proof (kerberos_first_step_and_context Demo.py3_host _ _ _ _ _ _ E)
    as [Hstep Hctx].
  assert (evs !! 1%nat = Some (AuthGSSClientStep 7%N "Basic realm=hg" (Ok 1))) as H1
    by (evaluate E; reflexivity).
  split; [exact H1|]. split; [exact (Hstep _ _ _ H1)|].
  apply (Hctx "HTTP@hg.example.org" 1 7%N). evaluate E. reflexivity.
Defined.

Lemma negotiate_offered_iff_witness :
  "Negotiate" ∈ supported_schemes 3 (Demo.challenge "Basic realm=hg,  Negotiate ").
Proof.
  apply (negotiate_offered_iff 3 (Demo.challenge "Basic realm=hg,  Negotiate ")).
  exists "  ", " ". repeat split.
  apply list_elem_of_further, list_elem_of_here.
Defined.

Lemma challenge_with_token_declined_witness :
  SSPIAuthHandler.http_error_401 Demo.py3_host Demo.req
      (Demo.challenge "Negotiate oYG2MIGz") Demo.windows_env =
    (Return None, Demo.windows_env,
     [Print "Server does not support Kerberos authentication"])
  /\ KerberosAuthHandler.http_error_401 Demo.py3_host Demo.req
      (Demo.challenge "Negotiate oYG2MIGz") Demo.windows_env =
    (Return None, Demo.windows_env,
     [Print "Server does not support Kerberos authentication"]).
Proof.
  exact (challenge_with_token_declined Demo.py3_host Demo.req
           (Demo.challenge "Negotiate oYG2MIGz") Demo.windows_env "oYG2MIGz"
           eq_refl eq_refl eq_refl).
Defined.

Lemma server_token_of_challenge_witness :
  KerberosAuthHandler.server_token Demo.py3_host
    (Demo.resp (Some "Negotiate oYG2MIGz, Basic realm=hg")) Demo.start =
  (Return "oYG2MIGz", Demo.start, []).
Proof.
  exact (server_token_of_challenge Demo.py3_host
           (Demo.resp (Some "Negotiate oYG2MIGz, Basic realm=hg")) Demo.start
           "Negotiate" "oYG2MIGz" " Basic realm=hg"
           (or_intror eq_refl) eq_refl eq_refl eq_refl eq_refl).
Defined.

Lemma kerberos_service_name_witness :
  exists rest,
    snd (KerberosAuthHandler.http_error_401 Demo.py3_host Demo.req
           (Demo.challenge "Negotiate") Demo.start) =
    AuthGSSClientInit "HTTP@hg.example.org" (Ok (1, 7%N)) :: rest.
Proof.
  exact (kerberos_service_name Demo.py3_host Demo.req (Demo.challenge "Negotiate")
           Demo.start "hg.example.org" "8443"
           ltac:(apply contains_elem_of; vm_compute; reflexivity)
           (or_intror eq_refl) eq_refl).
Defined.

Lemma sspi_target_name_witness :
  exists rest,
    snd (SSPIAuthHandler.http_error_401 Demo.py3_host Demo.req
           (Demo.challenge "Negotiate") Demo.windows_env) =
    GetHostByNameEx "hg.example.org" (Ok ("hg.example.org", [], ["192.0.2.7"]))
    :: NewClientAuth "Kerberos" "HTTP/hg.example.org@EXAMPLE.ORG" (Ok 1%N)
    :: rest.
Proof.
  exact (sspi_target_name Demo.py3_host Demo.req (Demo.challenge "Negotiate")
           Demo.windows_env "hg.example.org" "8443"
           ("hg.example.org", [], ["192.0.2.7"]) 0%nat "EXAMPLE.ORG"
           ltac:(apply contains_elem_of; vm_compute; reflexivity)
           (or_intror eq_refl) eq_refl eq_refl eq_refl).
Defined.

Lemma keytab_sets_cache_first_witness :
  exists o p' rest,
    KerberosAuthHandler.__init__ Demo.py3_host Demo.start =
      (o, p',
       SubprocessRun ["/usr/bin/klist"; "-c"; "/tmp/krb5cc_1000"; "-s"] (Ok 1) :: rest)
    /\ environ p' = <["KRB5CCNAME" := "/tmp/krb5cc_1000"]> (environ Demo.start).
Proof.
  exact (keytab_sets_cache_first Demo.py3_host Demo.start Demo.hgrc
           "/etc/hg.keytab" "hg@EXAMPLE.ORG"
           eq_refl eq_refl eq_refl eq_refl eq_refl eq_refl eq_refl eq_refl eq_refl).
Defined.

Lemma kinit_only_after_failed_klist_witness :
  let '(_, _, evs) := KerberosAuthHandler.__init__ Demo.py3_host Demo.start in
  forallb (fun e => is_subprocess e || is_print e) evs = true
  /\ (length (List.filter is_subprocess evs) <= 2)%nat
  /\ (forall ev, ev ∈ evs -> is_kinit ev = true ->
        exists krb5ccname rc keytab principal r,
          evs !! 0%nat =
            Some (SubprocessRun ["/usr/bin/klist"; "-c"; krb5ccname; "-s"] (Ok rc))
          /\ rc <> 0
          /\ ev = SubprocessRun
                    ["/usr/bin/kinit"; "-k"; "-c"; krb5ccname; "-t"; keytab; principal] r).
Proof.
  destruct (KerberosAuthHandler.__init__ _ _) as [[o p'] evs] eqn:E.
  exact (kinit_only_after_failed_klist Demo.py3_host Demo.start o p' evs E).
Defined.

Lemma failed_kinit_is_silent_witness :
  let '(o, _, evs) := KerberosAuthHandler.__init__ Cases.bad_keytab Demo.start in
  o = Return tt
  /\ last evs =
       Some (SubprocessRun
               ["/usr/bin/kinit"; "-k"; "-c"; "/tmp/krb5cc_1000"; "-t";
                "/etc/hg.keytab"; "hg@EXAMPLE.ORG"] (Ok 1)).
Proof.
  destruct (KerberosAuthHandler.__init__ _ _) as [[o p'] evs] eqn:E.
  apply (failed_kinit_is_silent Cases.bad_keytab Demo.start o p' evs _ 1 E).
  - evaluate E. do 2 apply list_elem_of_further. apply list_elem_of_here.
  - reflexivity.
  - discriminate.
Defined.

Lemma empty_option_is_noop_witness :
  exists o, KerberosAuthHandler.__init__ Cases.unnamed Demo.start = (o, Demo.start, []).
Proof.
  apply (empty_option_is_noop Cases.unnamed Demo.start Cases.empty_principal eq_refl).
  right. reflexivity.
Defined.

Lemma uisetup_registers_what_loaded_witness :
  let '(_, p1, _) :=
    Setup.load 3 Cases.linux_modules (Setup.fresh [Setup.OtherHandler "httpbasicauthhandler"]) in
  exists p2,
    Setup.uisetup p1 = (Return tt, p2, [])
    /\ Setup.handlerfuncs (os p2) =
       [Setup.OtherHandler "httpbasicauthhandler"; Setup.KerberosAuthHandler].
Proof.
  destruct (Setup.load _ _ _) as [[o p1] evs1] eqn:E.
  apply (uisetup_registers_what_loaded 3 Cases.linux_modules
           [Setup.OtherHandler "httpbasicauthhandler"] p1 evs1).
  rewrite E. f_equal. f_equal. evaluate E. reflexivity.
Defined.

Lemma no_security_module_exits_witness :
  exists p',
    Setup.import_specific Cases.bare_modules (Setup.fresh []) =
      (SysExit 1, p',
       [Print "pywin32 (Windows) or python(3)-kerberos (Linux/macOS) module not found, error was: No module named 'kerberos'"])
    /\ Setup.handlerfuncs (os p') = [].
Proof.
  exact (no_security_module_exits Cases.bare_modules (Setup.fresh [])
           (Cases.import_error "sspi") (Cases.import_error "kerberos")
           (or_introl eq_refl) eq_refl eq_refl eq_refl).
Defined.

Lemma kerberos_resubmitted_request_witness :
  let '(_, _, evs) :=
    KerberosAuthHandler.http_error_401 Demo.py3_host Demo.req
      (Demo.challenge "Negotiate") Demo.start in
  let req' := add_unredirected_header "Authorization" "Negotiate YIIB/w==" Demo.req in
  exists ctx response,
    AuthGSSClientResponse ctx (Ok response) ∈ evs
    /\ unredirected_hdrs req' =
         <["Authorization" := "Negotiate " ++ PyStr.str_opt response]>
           (unredirected_hdrs Demo.req)
    /\ headers req' = headers Demo.req
    /\ host req' = host Demo.req.
Proof.
  destruct (KerberosAuthHandler.http_error_401 _ _ _ _) as [[o p'] evs] eqn:E.
  apply (kerberos_resubmitted_request Demo.py3_host _ _ _ _ _ _
           (add_unredirected_header "Authorization" "Negotiate YIIB/w==" Demo.req)
           (Ok (Demo.resp (Some "Negotiate oYG2MIGz"))) E).
  evaluate E. do 4 apply list_elem_of_further. apply list_elem_of_here.
Defined.

Lemma sspi_never_raises_witness :
  let '(o, _, evs) :=
    SSPIAuthHandler.http_error_401 Cases.unreachable Demo.req
      (Demo.challenge "Negotiate") Demo.windows_env in
  (forall e, o <> Raise e)
  /\ ((exists resp req', o = Return (Some resp)
                         /\ last evs = Some (ParentOpen req' (Ok resp)))
      \/ (exists msg, last evs = Some (Print msg)
                      /\ (o = Return None \/ o = SysExit 1))).
Proof.
  destruct (SSPIAuthHandler.http_error_401 _ _ _ _) as [[o p'] evs] eqn:E.
  exact (sspi_never_raises Cases.unreachable _ _ _ o p' evs E).
Defined.

Lemma missing_mercurial_exits_witness :
  exists p',
    Setup.load 3 (fun m => if String.eqb m "mercurial.url"
                           then Some (Cases.import_error "mercurial") else None)
      (Setup.fresh []) =
      (SysExit 1, p',
       [Print "Could not import all required modules, error was: No module named 'mercurial'"])
    /\ ("ClientAuth" ∉ Setup.globals (os p'))
    /\ ("kerberos" ∉ Setup.globals (os p'))
    /\ Setup.handlerfuncs (os p') = [].
Proof.
  exact (missing_mercurial_exits 3 _ [] (Cases.import_error "mercurial")
           eq_refl eq_refl eq_refl eq_refl).
Defined.
(** For an IPv6 literal the cut at the first colon falls inside the
    address: the service name is [HTTP@[], and the SSPI handler resolves
    [[]. *)
Example ipv6_literal_host :
  (exists rest,
     snd (KerberosAuthHandler.http_error_401 Demo.py3_host Cases.ipv6_req
            (Demo.challenge "Negotiate") Demo.start) =
     AuthGSSClientInit "HTTP@[" (Ok (1, 7%N)) :: rest)
  /\ (exists rest,
        snd (SSPIAuthHandler.http_error_401 Demo.py3_host Cases.ipv6_req
               (Demo.challenge "Negotiate") Demo.windows_env) =
        GetHostByNameEx "[" (Ok ("[", [], ["192.0.2.7"])) :: rest).
Proof. split; vm_compute; by eexists. Qed.

(** ** The library models on examples *)

Example split_demo :
  PyStr.split "," "Negotiate, Basic realm=x" = ["Negotiate"; " Basic realm=x"]
  /\ PyStr.split "," "" = [""]
  /\ PyStr.split "," "a,,b," = ["a"; ""; "b"; ""].
Proof. repeat split. Qed.

Example strip_demo :
  PyStr.strip 3 "  Basic realm=x  " = "Basic realm=x"
  /\ supported_schemes 3 (Demo.challenge "Basic realm=x , Negotiate") =
       ["Basic realm=x"; "Negotiate"]
  /\ supported_schemes 3 Demo.no_challenge = [""].
Proof. repeat split. Qed.

Example split_ws_demo :
  PyStr.split_ws 3 "  Negotiate   YIIabc==  " = ["Negotiate"; "YIIabc=="]
  /\ PyStr.split_ws 3 "" = []
  /\ PyStr.split_ws 3 "Negotiate" = ["Negotiate"].
Proof. repeat split. Qed.

Example str_int_demo :
  PyStr.str_int (-12) = "-12" /\ PyStr.str_int 0 = "0" /\ PyStr.str_int 1000 = "1000".
Proof. repeat split. Qed.

Example capitalize_demo :
  PyStr.capitalize "Authorization" = "Authorization"
  /\ PyStr.capitalize "wWW-authenticate" = "Www-authenticate".
Proof. repeat split. Qed.

Example b64_demo :
  Base64.b64encode [x4d; x61; x6e] = "TWFu"
  /\ Base64.b64encode [x4d; x61] = "TWE="
  /\ Base64.b64encode [x4d] = "TQ=="
  /\ Base64.b64encode Demo.token = "YIIB/wA=".
Proof. repeat split. Qed.

(** 58 bytes make two lines: 76 digits, a newline, 4 digits, a newline. *)
Example encodebytes_demo :
  Base64.encodebytes (repeat x00 58) =
  (repeat "A"%char 76 ++ [Base64.newline] ++
   list_ascii_of_string "AA==" ++ [Base64.newline])%list.
Proof. vm_compute. reflexivity. Qed.
